(** * Perceptron learning algorithm (src/perceptron.py)

    A shallow embedding of the [Perceptron] class and the properties of its
    training loop, its prediction and its failure modes.

    The Python methods mutate an instance ([self.weights],
    [self._iterations]) and list objects reached through references, draw
    from the global random generator and raise built-in exceptions.  They are
    embedded as computations of a state-and-exception monad [Py] over a
    [World] that holds the instance, a store of list objects and the position
    in the generator's output. *)

From Stdlib Require Import ZArith Floats.PrimFloat.
From stdpp Require Import base tactics option list.

Local Open Scope Z_scope.

(** ** Numbers

    The source is typed [Union[float, int]] and only uses [+], [-], [*],
    [> 0], [!= 0] and the literals [0], [1], [-1].  The embedding is generic
    in the number type; [float_Number] below instantiates it with binary64
    floats, the representation of Python's [float]. *)

Class Number (R : Type) := {
  zero : R;
  one : R;
  add : R -> R -> R;
  sub : R -> R -> R;
  mul : R -> R -> R;
  opp : R -> R;
  (** [eqb a b] is Python's [a == b] and [gtb a b] is [a > b]. *)
  eqb : R -> R -> bool;
  gtb : R -> R -> bool;
  eqb_not_gtb : forall a b, eqb a b = true -> gtb a b = false;
  one_neq_opp_one : one <> opp one
}.

Module FloatNumber.

(** Comparisons of binary64 values through the primitive four-way
    comparison: a NaN is neither equal to nor greater than anything. *)
Definition feqb (a b : float) : bool :=
  match PrimFloat.compare a b with FEq => true | _ => false end.

Definition fgtb (a b : float) : bool :=
  match PrimFloat.compare a b with FGt => true | _ => false end.

Lemma feqb_not_fgtb (a b : float) : feqb a b = true -> fgtb a b = false.
Proof. unfold feqb, fgtb. destruct (PrimFloat.compare a b); congruence. Qed.

Lemma one_neq_minus_one : 1%float <> PrimFloat.opp 1%float.
Proof.
  intro H. apply (f_equal (fun x => fgtb x 0%float)) in H.
  vm_compute in H. discriminate.
Qed.

End FloatNumber.

#[export] Instance float_Number : Number float := {|
  zero := 0%float;
  one := 1%float;
  add := PrimFloat.add;
  sub := PrimFloat.sub;
  mul := PrimFloat.mul;
  opp := PrimFloat.opp;
  eqb := FloatNumber.feqb;
  gtb := FloatNumber.fgtb;
  eqb_not_gtb := FloatNumber.feqb_not_fgtb;
  one_neq_opp_one := FloatNumber.one_neq_minus_one
|}.

(** ** Exceptions

    [IndexError] and [AttributeError] are the built-in exceptions that the
    statements of the source can raise on inputs of the annotated types.
    [InvalidInput] and [NotTrained] are the error classes of the
    specification's taxonomy; no statement of the source raises them. *)

Inductive exn : Set :=
| IndexError
| AttributeError
| InvalidInput
| NotTrained.

Inductive outcome (A : Type) : Type :=
| Return (a : A)
| Raise (e : exn).
Arguments Return {A} a.
Arguments Raise {A} e.

(** ** The monad

    A computation takes the state, returns a value or raises an exception,
    and leaves a state behind in both cases: what a Python method did before
    it raised stays done. *)

Definition Eff (S A : Type) : Type := S -> outcome A * S.

Definition ret {S A} (a : A) : Eff S A := fun s => (Return a, s).

Definition raise {S A} (e : exn) : Eff S A := fun s => (Raise e, s).

Definition bind {S A B} (m : Eff S A) (k : A -> Eff S B) : Eff S B :=
  fun s =>
    match m s with
    | (Return a, s') => k a s'
    | (Raise e, s') => (Raise e, s')
    end.

Declare Scope eff_scope.
Delimit Scope eff_scope with eff.
Notation "x <- m ;; k" := (bind m (fun x => k))
  (at level 100, m at next level, right associativity) : eff_scope.
Notation "m ;;; k" := (bind m (fun _ => k))
  (at level 100, right associativity) : eff_scope.

(** [for x in xs: acc = body(x, acc)]: a loop over a list of indices that
    threads the local variables [acc] assigned in its body. *)
Fixpoint for_in {S I A} (xs : list I) (body : I -> A -> Eff S A) (acc : A)
  : Eff S A :=
  match xs with
  | [] => ret acc
  | x :: xs' => (acc' <- body x acc ;; for_in xs' body acc')%eff
  end.

(** [range(n)] *)
Definition range (n : nat) : list nat := seq 0 n.

(** ** The world *)

(** A reference to a list object: its index in the store. *)
Definition loc := nat.

Section WithNumber.

Context {R : Type} `{Number R}.

(** The sequence of values that successive calls of [random.random()]
    return. *)
Variable draws : nat -> R.

(** The attributes of the instance.  [weights] is only annotated in the class
    body: the attribute does not exist until [fit] assigns it. *)
Record Perceptron : Type := mkPerceptron {
  lr : R;
  n_iters : Z;
  _iterations : Z;
  weights : option loc
}.

(** [vecs] stores the list objects that hold numbers (feature vectors, the
    label list, weight lists) and [mats] those that hold references to such
    lists (sample lists).  A new object is appended, so a reference is valid
    when it is below the length of its store.  [drawn] counts the calls of
    [random.random()] made so far. *)
Record World : Type := mkWorld {
  self : Perceptron;
  vecs : list (list R);
  mats : list (list loc);
  drawn : nat
}.

Definition set_self (p : Perceptron) (s : World) : World :=
  mkWorld p (vecs s) (mats s) (drawn s).

Definition set_vecs (v : list (list R)) (s : World) : World :=
  mkWorld (self s) v (mats s) (drawn s).

Definition set_mats (m : list (list loc)) (s : World) : World :=
  mkWorld (self s) (vecs s) m (drawn s).

Definition set_drawn (n : nat) (s : World) : World :=
  mkWorld (self s) (vecs s) (mats s) n.

(** The contents of a list object; Python has no dangling reference, and a
    reference outside the store reads as the empty list. *)
Definition vec_at (s : World) (l : loc) : list R := vecs s !!! l.
Definition mat_at (s : World) (l : loc) : list loc := mats s !!! l.

Definition Py (A : Type) : Type := Eff World A.

Local Open Scope eff_scope.

(** ** Primitive statements *)

(** [len(v)], [v[i]] and [v[i] = a] on a list of numbers.  The loops of the
    source only produce indices from [range], so an index is never
    negative: a subscript fails exactly when it is past the end. *)
Definition vec_len (l : loc) : Py nat :=
  fun s => (Return (length (vec_at s l)), s).

Definition vec_get (l : loc) (i : nat) : Py R :=
  fun s =>
    match vec_at s l !! i with
    | Some a => (Return a, s)
    | None => (Raise IndexError, s)
    end.

Definition vec_set (l : loc) (i : nat) (a : R) : Py unit :=
  fun s =>
    if decide (i < length (vec_at s l))%nat
    then (Return tt, set_vecs (<[l := <[i := a]> (vec_at s l)]> (vecs s)) s)
    else (Raise IndexError, s).

(** The items of a list, as an iteration or a concatenation reads them. *)
Definition vec_items (l : loc) : Py (list R) :=
  fun s => (Return (vec_at s l), s).

(** A list display, comprehension or concatenation builds a new object. *)
Definition vec_new (xs : list R) : Py loc :=
  fun s => (Return (length (vecs s)), set_vecs (vecs s ++ [xs]) s).

(** The same on a list of lists.  The source never assigns to an item of
    such a list. *)
Definition mat_len (l : loc) : Py nat :=
  fun s => (Return (length (mat_at s l)), s).

Definition mat_get (l : loc) (i : nat) : Py loc :=
  fun s =>
    match mat_at s l !! i with
    | Some a => (Return a, s)
    | None => (Raise IndexError, s)
    end.

Definition mat_items (l : loc) : Py (list loc) :=
  fun s => (Return (mat_at s l), s).

Definition mat_new (xs : list loc) : Py loc :=
  fun s => (Return (length (mats s)), set_mats (mats s ++ [xs]) s).

(** [random.random()] *)
Definition random : Py R :=
  fun s => (Return (draws (drawn s)), set_drawn (S (drawn s)) s).

(** Attribute reads and writes on [self].  Reading [self.weights] before
    [fit] has assigned it raises [AttributeError]. *)
Definition self_lr : Py R := fun s => (Return (lr (self s)), s).

Definition self_n_iters : Py Z := fun s => (Return (n_iters (self s)), s).

Definition self__iterations : Py Z :=
  fun s => (Return (_iterations (self s)), s).

Definition self_weights : Py loc :=
  fun s =>
    match weights (self s) with
    | Some l => (Return l, s)
    | None => (Raise AttributeError, s)
    end.

Definition set_self__iterations (k : Z) : Py unit :=
  fun s =>
    let p := self s in
    (Return tt, set_self (mkPerceptron (lr p) (n_iters p) k (weights p)) s).

Definition set_self_weights (l : loc) : Py unit :=
  fun s =>
    let p := self s in
    (Return tt,
     set_self (mkPerceptron (lr p) (n_iters p) (_iterations p) (Some l)) s).

(** ** The class Perceptron *)

(** [__init__(self, learning_rate, n_iters)]: the instance it leaves. *)
Definition __init__ (learning_rate : R) (n_iters : Z) : Perceptron :=
  mkPerceptron learning_rate n_iters 0 None.

(** The property [iterations]. *)
Definition iterations : Py Z := self__iterations.

(** [_activation(self, z)]: [1 if z > 0 else -1]. *)
Definition _activation (z : R) : R :=
  if gtb z zero then one else opp one.

(** [predict(self, X)].  [sum] starts from [0] and adds the products in the
    order of the indices; [self.weights] is looked up at each product. *)
Definition predict (X : loc) : Py R :=
  n <- vec_len X ;;
  z <- for_in (range n) (fun i acc =>
         xi <- vec_get X i ;;
         w <- self_weights ;;
         wi <- vec_get w i ;;
         ret (add acc (mul xi wi))) zero ;;
  ret (_activation z).

(** [_update_weights(self, X, y)].  [self.weights[j] += v] reads
    [self.weights] once, then the item, then evaluates [v], then stores. *)
Definition _update_weights (X y : loc) : Py bool :=
  n <- mat_len X ;;
  all_classified_correctly <-
    for_in (range n) (fun i all_classified_correctly =>
      xi <- mat_get X i ;;
      y_hat <- predict xi ;;
      yi <- vec_get y i ;;
      let error := sub yi y_hat in
      if negb (eqb error zero) then
        xi <- mat_get X i ;;
        m <- vec_len xi ;;
        for_in (range m) (fun j (_ : unit) =>
          w <- self_weights ;;
          wj <- vec_get w j ;;
          eta <- self_lr ;;
          xi <- mat_get X i ;;
          xij <- vec_get xi j ;;
          vec_set w j (add wj (mul (mul eta error) xij))) tt ;;;
        ret false
      else ret all_classified_correctly) true ;;
  ret (negb all_classified_correctly).

(** The loop [for _ in range(self.n_iters)] of [fit], on the number of
    rounds that remain. *)
Fixpoint fit_loop (X y : loc) (rounds : nat) : Py unit :=
  match rounds with
  | O => ret tt
  | S rounds' =>
      k <- self__iterations ;;
      set_self__iterations (k + 1) ;;;
      updated <- _update_weights X y ;;
      if negb updated then ret tt (* break *)
      else fit_loop X y rounds'
  end.

(** [fit(self, X, y)].  The comprehensions append to a new list; the lists
    [[1]] are temporaries that nothing else can reach and are left out of
    the store. *)
Definition fit (X y : loc) : Py unit :=
  x0 <- mat_get X 0 ;;
  n <- vec_len x0 ;;
  ws <- for_in (range (n + 1)) (fun _ ws =>
          r <- random ;; ret (ws ++ [r])) [] ;;
  w <- vec_new ws ;;
  set_self_weights w ;;;
  set_self__iterations 0 ;;;
  xs <- mat_items X ;;
  rows <- for_in xs (fun x rows =>
            items <- vec_items x ;;
            x' <- vec_new (one :: items) ;;
            ret (rows ++ [x'])) [] ;;
  X <- mat_new rows ;;
  n <- self_n_iters ;;
  fit_loop X y (Z.to_nat n).

(** ** The methods on list values

    What the loops of the methods compute, on the contents of the lists they
    read, failures included.  The lemmas below show that the methods run as
    these functions say. *)

(** The sum of [predict] from the accumulator [acc]; [None] when
    [self.weights[i]] is past the end. *)
Fixpoint partial_sum (acc : R) (x w : list R) : option R :=
  match x with
  | [] => Some acc
  | xi :: x' =>
      match w with
      | [] => None
      | wi :: w' => partial_sum (add acc (mul xi wi)) x' w'
      end
  end.

(** [predict] on the contents [x] of its argument and the contents of
    [self.weights], where the attribute exists. *)
Definition predict_list (ow : option (list R)) (x : list R) : outcome R :=
  match x with
  | [] => Return (_activation zero)
  | _ :: _ =>
      match ow with
      | None => Raise AttributeError
      | Some w =>
          match partial_sum zero x w with
          | Some z => Return (_activation z)
          | None => Raise IndexError
          end
      end
  end.

(** The inner loop of [_update_weights]: the weights at the indices of [x]
    move, the others stay. *)
Fixpoint bump (eta error : R) (x w : list R) : list R :=
  match x, w with
  | xj :: x', wj :: w' =>
      add wj (mul (mul eta error) xj) :: bump eta error x' w'
  | _, _ => w
  end.

(** The outer loop of [_update_weights] over the samples [xss] and the
    labels [ys] that remain. *)
Fixpoint epoch_list (eta : R) (xss : list (list R)) (ys w : list R)
    (all_classified_correctly : bool) : outcome bool * list R :=
  match xss with
  | [] => (Return all_classified_correctly, w)
  | x :: xss' =>
      match partial_sum zero x w with
      | None => (Raise IndexError, w)
      | Some z =>
          match ys with
          | [] => (Raise IndexError, w)
          | yi :: ys' =>
              let error := sub yi (_activation z) in
              if negb (eqb error zero)
              then epoch_list eta xss' ys' (bump eta error x w) false
              else epoch_list eta xss' ys' w all_classified_correctly
          end
      end
  end.

(** The loop of [fit]: the weights and the counter it leaves. *)
Fixpoint fit_list (eta : R) (xss : list (list R)) (ys w : list R) (k : Z)
    (rounds : nat) : outcome unit * (list R * Z) :=
  match rounds with
  | O => (Return tt, (w, k))
  | S rounds' =>
      match epoch_list eta xss ys w true with
      | (Return true, w') => (Return tt, (w', k + 1))
      | (Return false, w') => fit_list eta xss ys w' (k + 1) rounds'
      | (Raise e, w') => (Raise e, (w', k + 1))
      end
  end.

(** ** The algorithm in the words of the specification *)

(** [z = sum of sample[i] * weight[i]] over the aligned indices. *)
Definition weighted_sum (x w : list R) : R :=
  foldl add zero (zip_with mul x w).

(** [error = true_label - predicted_label] *)
Definition error_of (w : list R) (sample : list R * R) : R :=
  sub sample.2 (_activation (weighted_sum sample.1 w)).

(** [weight[j] += learning_rate * error * augmented_sample[j]] at every
    [j]. *)
Definition adjust (eta error : R) (x w : list R) : list R :=
  zip_with (fun wj xj => add wj (mul (mul eta error) xj)) w x.

(** One sample: the weights move if and only if the error is not 0. *)
Definition learn (eta : R) (w : list R) (sample : list R * R) : list R :=
  let error := error_of w sample in
  if negb (eqb error zero) then adjust eta error sample.1 w else w.

(** One epoch: the samples in their order; the flag tells whether the epoch
    had at least one misclassification. *)
Definition epoch_step (eta : R) (st : list R * bool) (sample : list R * R)
  : list R * bool :=
  (learn eta st.1 sample, st.2 || negb (eqb (error_of st.1 sample) zero)).

Definition epoch (eta : R) (samples : list (list R * R)) (w : list R)
  : list R * bool :=
  foldl (epoch_step eta) (w, false) samples.

(** The augmented samples: a constant 1 before the features, paired with
    the labels. *)
Definition augment (xss : list (list R)) (ys : list R) : list (list R * R) :=
  zip (cons one <$> xss) ys.

(** The weights after [k] epochs. *)
Fixpoint weights_after (eta : R) (samples : list (list R * R)) (w : list R)
    (k : nat) : list R :=
  match k with
  | O => w
  | S k' => (epoch eta samples (weights_after eta samples w k')).1
  end.

(** Epoch number [k + 1] has no misclassification. *)
Definition clean_epoch (eta : R) (samples : list (list R * R)) (w : list R)
    (k : nat) : bool :=
  negb (epoch eta samples (weights_after eta samples w k)).2.

(** The number of epochs that run when at most [rounds] are allowed: the
    loop stops after the first one without a misclassification. *)
Fixpoint epochs_run (eta : R) (samples : list (list R * R)) (w : list R)
    (rounds : nat) : nat :=
  match rounds with
  | O => O
  | S rounds' =>
      let (w', misclassified) := epoch eta samples w in
      if misclassified then S (epochs_run eta samples w' rounds') else 1%nat
  end.

(** ** Worlds *)

(** The initial weights that [fit] draws for [n] features. *)
Definition drawn_weights (s : World) (n : nat) : list R :=
  draws <$> seq (drawn s) (n + 1).

(** The world in which the list object [wl] holds [w]: what the stores of
    [_update_weights] into [self.weights] add up to. *)
Definition store_weights (wl : loc) (w : list R) (s : World) : World :=
  set_vecs (<[wl := w]> (vecs s)) s.

(** The contents of [self.weights], where the attribute exists. *)
Definition weights_of (s : World) : option (list R) :=
  vec_at s <$> weights (self s).

(** The world after [self._iterations = k]. *)
Definition store_iterations (k : Z) (s : World) : World :=
  set_self (mkPerceptron (lr (self s)) (n_iters (self s)) k (weights (self s))) s.

(** The samples and the labels that the lists [X] and [y] hold. *)
Definition samples_of (s : World) (X : loc) : list (list R) :=
  vec_at s <$> mat_at s X.

(** [len(X[0])] *)
Definition features (s : World) (X : loc) : nat :=
  length (vec_at s (mat_at s X !!! 0%nat)).

(** The world that [fit] has built when its loop starts: the new weight list,
    then the augmented samples, are appended to the store of number lists,
    and the list of the augmented samples to the store of sample lists. *)
Definition prepared (s : World) (X : loc) : World :=
  mkWorld
    (mkPerceptron (lr (self s)) (n_iters (self s)) 0 (Some (length (vecs s))))
    (vecs s ++ drawn_weights s (features s X) :: (cons one <$> samples_of s X))
    (mats s ++ [seq (S (length (vecs s))) (length (mat_at s X))])
    (drawn s + (features s X + 1)).

(** The references of the world are allocated: the samples of [X] and the
    label list [y] are objects of the store. *)
Definition allocated (s : World) (X y : loc) : Prop :=
  Forall (fun l => l < length (vecs s))%nat (mat_at s X)
  /\ (y < length (vecs s))%nat.

(** A training set as the specification requires it: at least one sample,
    every sample as long as the first, a label for every sample (labels past
    the last sample are tolerated). *)
Definition trainable (s : World) (X y : loc) : Prop :=
  allocated s X y
  /\ mat_at s X <> []
  /\ Forall (fun x => length x = features s X) (samples_of s X)
  /\ (length (samples_of s X) <= length (vec_at s y))%nat.

(** The world as [_update_weights] needs it: [self.weights] is the object
    [wl], the sample list [X] holds the references [rows], and neither a
    sample nor the label list [y] is the object [wl] itself. *)
Record trains (s : World) (X y wl : loc) (rows : list loc) : Prop := {
  trains_weights : weights (self s) = Some wl;
  trains_valid : (wl < length (vecs s))%nat;
  trains_rows : mat_at s X = rows;
  trains_apart : Forall (fun l => l <> wl) rows;
  trains_labels : y <> wl
}.

(** ** Running a computation *)

Lemma bind_Return {A B} (m : Py A) (k : A -> Py B) s a s' :
  m s = (Return a, s') -> bind m k s = k a s'.
Proof. intros E. unfold bind. by rewrite E. Qed.

Lemma bind_Raise {A B} (m : Py A) (k : A -> Py B) s e s' :
  m s = (Raise e, s') -> bind m k s = (Raise e, s').
Proof. intros E. unfold bind. by rewrite E. Qed.

Lemma for_in_cons {I A} (x : I) xs (body : I -> A -> Py A) acc s :
  for_in (x :: xs) body acc s
  = match body x acc s with
    | (Return a, s') => for_in xs body a s'
    | (Raise e, s') => (Raise e, s')
    end.
Proof. done. Qed.

(** ** [predict] *)

Lemma partial_sum_le (x w : list R) acc :
  (length x <= length w)%nat ->
  partial_sum acc x w = Some (foldl add acc (zip_with mul x w)).
Proof.
  revert w acc. induction x as [|xi x IH]; intros [|wi w] acc Hlen; simpl in *;
    try done; try lia.
  apply IH. lia.
Qed.

Lemma partial_sum_gt (x w : list R) acc :
  (length w < length x)%nat -> partial_sum acc x w = None.
Proof.
  revert w acc. induction x as [|xi x IH]; intros [|wi w] acc Hlen; simpl in *;
    try done; try lia.
  apply IH. lia.
Qed.

Lemma predict_loop s X wl m :
  weights (self s) = Some wl ->
  forall k acc, (k + m = length (vec_at s X))%nat ->
  for_in (seq k m) (fun i acc =>
      xi <- vec_get X i ;;
      w <- self_weights ;;
      wi <- vec_get w i ;;
      ret (add acc (mul xi wi))) acc s
  = (match partial_sum acc (drop k (vec_at s X)) (drop k (vec_at s wl)) with
     | Some z => Return z
     | None => Raise IndexError
     end, s).
Proof.
  intros Hw. induction m as [|m IH]; intros k acc Hk.
  - rewrite drop_ge by lia. done.
  - destruct (lookup_lt_is_Some_2 (vec_at s X) k) as [xi Hxi]; [lia|].
    rewrite (drop_S _ _ _ Hxi). simpl seq. rewrite for_in_cons.
    destruct (vec_at s wl !! k) as [wi|] eqn:Hwi.
    + rewrite (drop_S _ _ _ Hwi). simpl partial_sum.
      rewrite <- IH by lia.
      cbv [bind vec_get self_weights ret]. by rewrite Hxi, Hw, Hwi.
    + rewrite (drop_ge (vec_at s wl)) by (by apply lookup_ge_None).
      cbv [bind vec_get self_weights ret]. by rewrite Hxi, Hw, Hwi.
Qed.

Lemma predict_run X s :
  predict X s = (predict_list (weights_of s) (vec_at s X), s).
Proof.
  unfold predict, weights_of, range. unfold bind at 1. unfold vec_len at 1.
  destruct (weights (self s)) as [wl|] eqn:Hw; simpl.
  - unfold bind. rewrite (predict_loop s X wl _ Hw) by done.
    rewrite !drop_0. unfold predict_list.
    destruct (vec_at s X) as [|xi x]; [done|].
    by destruct (partial_sum zero (xi :: x) (vec_at s wl)).
  - destruct (vec_at s X) as [|xi x] eqn:HX; simpl; [done|].
    cbv [bind vec_get self_weights]. rewrite HX. simpl. by rewrite Hw.
Qed.

(** ** Stores *)

Lemma self_store_weights wl w s : self (store_weights wl w s) = self s.
Proof. done. Qed.

Lemma mat_at_store_weights wl w s l : mat_at (store_weights wl w s) l = mat_at s l.
Proof. done. Qed.

Lemma vec_at_store_weights_ne wl w s l :
  l <> wl -> vec_at (store_weights wl w s) l = vec_at s l.
Proof.
  intros Hne. unfold vec_at, store_weights. simpl.
  by rewrite list_lookup_total_insert_ne.
Qed.

Lemma vec_at_store_weights_eq wl w s :
  (wl < length (vecs s))%nat -> vec_at (store_weights wl w s) wl = w.
Proof.
  intros Hlt. unfold vec_at, store_weights. simpl.
  by rewrite list_lookup_total_insert_eq.
Qed.

Lemma store_weights_twice wl w1 w2 s :
  store_weights wl w2 (store_weights wl w1 s) = store_weights wl w2 s.
Proof. unfold store_weights, set_vecs. simpl. by rewrite list_insert_insert_eq. Qed.

Lemma store_weights_same wl s : store_weights wl (vec_at s wl) s = s.
Proof.
  unfold store_weights, set_vecs, vec_at. destruct s as [p v m d]. simpl. f_equal.
  apply list_insert_id'. intros Hlt. by apply list_lookup_lookup_total_lt.
Qed.

Lemma trains_store_iterations s X y wl rows k :
  trains s X y wl rows -> trains (store_iterations k s) X y wl rows.
Proof. by intros [Hw Hv HX Hr Hy]. Qed.

(** ** [_update_weights] *)

Lemma partial_sum_Some_le (x w : list R) acc z :
  partial_sum acc x w = Some z -> (length x <= length w)%nat.
Proof.
  intros Hz. destruct (decide (length x <= length w)%nat) as [|Hgt]; [done|].
  rewrite partial_sum_gt in Hz by lia. done.
Qed.

Lemma predict_list_Some (w x : list R) :
  predict_list (Some w) x
  = match partial_sum zero x w with
    | Some z => Return (_activation z)
    | None => Raise IndexError
    end.
Proof. by destruct x. Qed.

Lemma bump_step eta e (x w : list R) k xj wj :
  x !! k = Some xj -> w !! k = Some wj ->
  take (S k) (<[k := add wj (mul (mul eta e) xj)]> w)
    ++ bump eta e (drop (S k) x) (drop (S k) (<[k := add wj (mul (mul eta e) xj)]> w))
  = take k w ++ bump eta e (drop k x) (drop k w).
Proof.
  intros Hx Hw.
  assert (k < length w)%nat as Hk by (by eapply lookup_lt_Some).
  rewrite (drop_S _ _ _ Hx), (drop_S _ _ _ Hw). simpl.
  rewrite drop_insert_lt by lia.
  erewrite take_S_r by (by apply list_lookup_insert_eq).
  rewrite take_insert_ge by lia. by rewrite <- app_assoc.
Qed.

Lemma update_loop s X wl i xl eta e m :
  weights (self s) = Some wl ->
  (wl < length (vecs s))%nat ->
  mat_at s X !! i = Some xl ->
  xl <> wl ->
  lr (self s) = eta ->
  forall k w, (k + m = length (vec_at s xl))%nat ->
  (length (vec_at s xl) <= length w)%nat ->
  for_in (seq k m) (fun j (_ : unit) =>
      w <- self_weights ;;
      wj <- vec_get w j ;;
      eta <- self_lr ;;
      xi <- mat_get X i ;;
      xij <- vec_get xi j ;;
      vec_set w j (add wj (mul (mul eta e) xij))) tt (store_weights wl w s)
  = (Return tt,
     store_weights wl (take k w ++ bump eta e (drop k (vec_at s xl)) (drop k w)) s).
Proof.
  intros Hw Hv HX Hne Heta. induction m as [|m IH]; intros k w Hk Hlen.
  - rewrite (drop_ge (vec_at s xl)) by lia.
    simpl. by rewrite take_drop.
  - destruct (lookup_lt_is_Some_2 (vec_at s xl) k) as [xj Hxj]; [lia|].
    destruct (lookup_lt_is_Some_2 w k) as [wj Hwj]; [lia|].
    simpl seq. rewrite for_in_cons.
    assert ((w0 <- self_weights ;;
             wj <- vec_get w0 k ;;
             eta <- self_lr ;;
             xi <- mat_get X i ;;
             xij <- vec_get xi k ;;
             vec_set w0 k (add wj (mul (mul eta e) xij))) (store_weights wl w s)
            = (Return tt,
               store_weights wl (<[k := add wj (mul (mul eta e) xj)]> w) s)) as ->.
    { cbv [bind self_weights vec_get self_lr mat_get vec_set].
      rewrite self_store_weights, Hw. cbv beta iota.
      rewrite vec_at_store_weights_eq, Hwj by done. cbv beta iota.
      rewrite mat_at_store_weights, HX. cbv beta iota.
      rewrite vec_at_store_weights_ne, Hxj by done. cbv beta iota.
      rewrite vec_at_store_weights_eq by done.
      rewrite decide_True by (by eapply lookup_lt_Some).
      rewrite self_store_weights, Heta.
      f_equal. apply store_weights_twice. }
    rewrite IH by (rewrite ?length_insert; lia).
    f_equal. f_equal. by apply bump_step.
Qed.

Lemma mat_get_run s X i l :
  mat_at s X !! i = Some l -> mat_get X i s = (Return l, s).
Proof. intros E. unfold mat_get. by rewrite E. Qed.

Lemma vec_get_run s v i a :
  vec_at s v !! i = Some a -> vec_get v i s = (Return a, s).
Proof. intros E. unfold vec_get. by rewrite E. Qed.

Lemma vec_get_past s v i :
  vec_at s v !! i = None -> vec_get v i s = (Raise IndexError, s).
Proof. intros E. unfold vec_get. by rewrite E. Qed.

Lemma weights_of_store_weights s wl w :
  weights (self s) = Some wl -> (wl < length (vecs s))%nat ->
  weights_of (store_weights wl w s) = Some w.
Proof.
  intros Hw Hv. unfold weights_of. rewrite self_store_weights, Hw. simpl.
  by rewrite vec_at_store_weights_eq.
Qed.

Lemma epoch_loop s X y wl rows m :
  trains s X y wl rows ->
  forall k w ok, (k + m = length rows)%nat ->
  for_in (seq k m) (fun i all_classified_correctly =>
      xi <- mat_get X i ;;
      y_hat <- predict xi ;;
      yi <- vec_get y i ;;
      let error := sub yi y_hat in
      if negb (eqb error zero) then
        xi <- mat_get X i ;;
        m <- vec_len xi ;;
        for_in (range m) (fun j (_ : unit) =>
          w <- self_weights ;;
          wj <- vec_get w j ;;
          eta <- self_lr ;;
          xi <- mat_get X i ;;
          xij <- vec_get xi j ;;
          vec_set w j (add wj (mul (mul eta error) xij))) tt ;;;
        ret false
      else ret all_classified_correctly) ok (store_weights wl w s)
  = (let (r, w') := epoch_list (lr (self s)) (drop k (vec_at s <$> rows))
                      (drop k (vec_at s y)) w ok in
     (r, store_weights wl w' s)).
Proof.
  intros [Hw Hv HX Hr Hy]. induction m as [|m IH]; intros k w ok Hk.
  - rewrite drop_ge by (rewrite length_fmap; lia). done.
  - destruct (lookup_lt_is_Some_2 rows k) as [xl Hxl]; [lia|].
    assert (xl <> wl) as Hne by exact (Forall_lookup_1 _ _ _ _ Hr Hxl).
    assert ((vec_at s <$> rows) !! k = Some (vec_at s xl)) as Hxs
      by (by rewrite list_lookup_fmap, Hxl).
    rewrite (drop_S _ _ _ Hxs). simpl seq. rewrite for_in_cons. cbv beta.
    assert (mat_at (store_weights wl w s) X !! k = Some xl) as E1
      by (by rewrite mat_at_store_weights, HX).
    rewrite (bind_Return _ _ _ _ _ (mat_get_run _ _ _ _ E1)).
    simpl epoch_list.
    pose proof (predict_run xl (store_weights wl w s)) as E2.
    rewrite weights_of_store_weights, vec_at_store_weights_ne in E2 by done.
    rewrite predict_list_Some in E2.
    destruct (partial_sum zero (vec_at s xl) w) as [z|] eqn:Hz.
    2:{ by rewrite (bind_Raise _ _ _ _ _ E2). }
    rewrite (bind_Return _ _ _ _ _ E2).
    destruct (vec_at s y !! k) as [yi|] eqn:Hyi.
    2:{ rewrite (drop_ge (vec_at s y)) by (by apply lookup_ge_None).
        assert (vec_at (store_weights wl w s) y !! k = None) as E3
          by (by rewrite vec_at_store_weights_ne).
        by rewrite (bind_Raise _ _ _ _ _ (vec_get_past _ _ _ E3)). }
    rewrite (drop_S _ _ _ Hyi).
    assert (vec_at (store_weights wl w s) y !! k = Some yi) as E3
      by (by rewrite vec_at_store_weights_ne).
    rewrite (bind_Return _ _ _ _ _ (vec_get_run _ _ _ _ E3)).
    cbv zeta.
    destruct (negb (eqb (sub yi (_activation z)) zero)) eqn:He.
    + rewrite (bind_Return _ _ _ _ _ (mat_get_run _ _ _ _ E1)).
      assert (vec_len xl (store_weights wl w s)
              = (Return (length (vec_at s xl)), store_weights wl w s)) as E4
        by (unfold vec_len; by rewrite vec_at_store_weights_ne).
      rewrite (bind_Return _ _ _ _ _ E4). unfold range.
      assert (mat_at s X !! k = Some xl) as E5 by (by rewrite HX).
      pose proof (partial_sum_Some_le _ _ _ _ Hz) as Hlen.
      rewrite (bind_Return _ _ _ _ _
                 (update_loop s X wl k xl (lr (self s)) _ _ Hw Hv E5 Hne eq_refl
                    0%nat w eq_refl Hlen)).
      unfold ret at 1. rewrite IH by lia. by rewrite !drop_0.
    + unfold ret at 1. rewrite IH by lia. done.
Qed.

Lemma _update_weights_run s X y wl rows w :
  trains s X y wl rows ->
  _update_weights X y (store_weights wl w s)
  = (let (r, w') := epoch_list (lr (self s)) (vec_at s <$> rows) (vec_at s y)
                      w true in
     (match r with Return ok => Return (negb ok) | Raise e => Raise e end,
      store_weights wl w' s)).
Proof.
  intros Ht. unfold _update_weights. unfold bind at 1. unfold mat_len at 1.
  rewrite mat_at_store_weights, (trains_rows _ _ _ _ _ Ht). unfold range.
  unfold bind. rewrite (epoch_loop s X y wl rows _ Ht) by done.
  rewrite !drop_0.
  by destruct (epoch_list _ _ _ _ _) as [[ok|e] w'].
Qed.

(** ** The loop of [fit] *)

Lemma store_iterations_store_weights k wl w s :
  store_iterations k (store_weights wl w s)
  = store_weights wl w (store_iterations k s).
Proof. done. Qed.

Lemma fit_loop_run s X y wl rows rounds :
  trains s X y wl rows ->
  forall w k,
  fit_loop X y rounds (store_iterations k (store_weights wl w s))
  = (let '(r, (w', k')) := fit_list (lr (self s)) (vec_at s <$> rows)
                             (vec_at s y) w k rounds in
     (r, store_iterations k' (store_weights wl w' s))).
Proof.
  intros Ht. induction rounds as [|rounds IH]; intros w k; [done|].
  simpl fit_loop. simpl fit_list.
  unfold bind at 1. unfold self__iterations at 1.
  unfold bind at 1. unfold set_self__iterations at 1.
  change (set_self _ (store_iterations k (store_weights wl w s)))
    with (store_weights wl w (store_iterations (k + 1) s)).
  unfold bind at 1.
  rewrite (_update_weights_run (store_iterations (k + 1) s) X y wl rows w)
    by (by apply trains_store_iterations).
  change (lr (self (store_iterations (k + 1) s))) with (lr (self s)).
  change (vec_at (store_iterations (k + 1) s)) with (vec_at s).
  destruct (epoch_list _ _ _ _ _) as [[[|]|e] w']; simpl negb; cbv iota.
  - done.
  - rewrite <- store_iterations_store_weights. apply IH.
  - done.
Qed.

(** ** The preamble of [fit] *)

Lemma draw_loop m :
  forall k ws s,
  for_in (seq k m) (fun (_ : nat) ws => r <- random ;; ret (ws ++ [r])) ws s
  = (Return (ws ++ (draws <$> seq (drawn s) m)),
     set_drawn (drawn s + m) s).
Proof.
  induction m as [|m IH]; intros k ws s.
  - simpl. rewrite app_nil_r, Nat.add_0_r. by destruct s.
  - simpl seq. rewrite for_in_cons. cbv [bind random ret]. rewrite IH.
    simpl. rewrite <- app_assoc. f_equal.
    unfold set_drawn. simpl. f_equal. lia.
Qed.

Lemma vec_at_grow s ext l :
  (l < length (vecs s))%nat -> vec_at (set_vecs (vecs s ++ ext) s) l = vec_at s l.
Proof. intros Hl. unfold vec_at. simpl. by rewrite lookup_total_app_l. Qed.

Lemma augment_loop xs :
  forall rows s,
  Forall (fun l => l < length (vecs s))%nat xs ->
  for_in xs (fun x rows =>
      items <- vec_items x ;;
      x' <- vec_new (one :: items) ;;
      ret (rows ++ [x'])) rows s
  = (Return (rows ++ seq (length (vecs s)) (length xs)),
     set_vecs (vecs s ++ (cons one <$> (vec_at s <$> xs))) s).
Proof.
  induction xs as [|x xs IH]; intros rows s Hxs.
  - simpl. rewrite !app_nil_r. by destruct s.
  - apply Forall_cons in Hxs as [Hx Hxs].
    rewrite for_in_cons. cbv [bind vec_items vec_new ret].
    rewrite IH.
    2:{ eapply Forall_impl; [exact Hxs|]. intros l Hl. simpl in *.
        rewrite length_app. simpl. lia. }
    assert (vec_at (set_vecs (vecs s ++ [one :: vec_at s x]) s) <$> xs
            = vec_at s <$> xs) as ->.
    { apply Forall_fmap_ext_1. eapply Forall_impl; [exact Hxs|].
      intros l Hl. apply (vec_at_grow s [one :: vec_at s x] l Hl). }
    simpl. rewrite length_app, <- !app_assoc. simpl.
    by rewrite Nat.add_1_r.
Qed.

(** ** [fit] *)

Lemma fit_empty s X y :
  mat_at s X = [] -> fit X y s = (Raise IndexError, s).
Proof. intros HX. unfold fit, bind, mat_get. by rewrite HX. Qed.

Lemma trains_prepared s X y :
  allocated s X y ->
  trains (prepared s X) (length (mats s)) y (length (vecs s))
    (seq (S (length (vecs s))) (length (mat_at s X))).
Proof.
  intros [Hrows Hy]. split; simpl.
  - done.
  - rewrite length_app. simpl. lia.
  - unfold mat_at. simpl. by rewrite list_lookup_total_middle.
  - apply Forall_seq. intros j Hj. lia.
  - lia.
Qed.

Lemma vec_at_prepared_weights s X :
  vec_at (prepared s X) (length (vecs s)) = drawn_weights s (features s X).
Proof. unfold vec_at. simpl. by rewrite list_lookup_total_middle. Qed.

Lemma vec_at_prepared_old s X l :
  (l < length (vecs s))%nat -> vec_at (prepared s X) l = vec_at s l.
Proof. intros Hl. unfold vec_at. simpl. by rewrite lookup_total_app_l. Qed.

Lemma vec_at_prepared_rows s X :
  vec_at (prepared s X) <$> seq (S (length (vecs s))) (length (mat_at s X))
  = cons one <$> samples_of s X.
Proof.
  apply list_eq. intros i. rewrite list_lookup_fmap.
  destruct (decide (i < length (mat_at s X))%nat) as [Hi|Hi].
  - rewrite lookup_seq_lt by done. simpl.
    destruct (lookup_lt_is_Some_2 (cons one <$> samples_of s X) i) as [x Hx].
    { unfold samples_of. by rewrite !length_fmap. }
    rewrite Hx. f_equal. unfold vec_at. simpl.
    apply list_lookup_total_correct.
    rewrite lookup_app_r by lia.
    replace (S (length (vecs s) + i) - length (vecs s))%nat with (S i) by lia.
    done.
  - rewrite lookup_seq_ge by lia. simpl. symmetry. apply lookup_ge_None.
    unfold samples_of. rewrite !length_fmap. lia.
Qed.

Lemma fit_preamble s X y :
  allocated s X y -> mat_at s X <> [] ->
  fit X y s
  = fit_loop (length (mats s)) y (Z.to_nat (n_iters (self s))) (prepared s X).
Proof.
  intros [Hrows Hy] HX. unfold fit, prepared, samples_of, features.
  destruct (mat_at s X) as [|x0 rows] eqn:Hm; [done|].
  assert (mat_at s X !! 0%nat = Some x0) as E0 by (by rewrite Hm).
  rewrite (bind_Return _ _ _ _ _ (mat_get_run _ _ _ _ E0)).
  unfold bind at 1. unfold vec_len at 1. unfold range.
  rewrite (bind_Return _ _ _ _ _ (draw_loop _ _ _ _)).
  unfold bind at 1. unfold vec_new at 1.
  unfold bind at 1. unfold set_self_weights at 1.
  unfold bind at 1. unfold set_self__iterations at 1.
  unfold bind at 1. unfold mat_items at 1.
  cbv [set_vecs set_self set_drawn set_mats].
  cbn [self vecs mats drawn lr n_iters _iterations weights].
  match goal with
  | |- bind _ _ ?st = _ =>
      change (mat_at st X) with (mat_at s X);
      assert (Forall (fun l => l < length (vecs st))%nat (x0 :: rows)) as Hv;
      [|assert (vec_at st <$> x0 :: rows = vec_at s <$> x0 :: rows) as Hsame]
  end.
  { eapply Forall_impl; [exact Hrows|]. intros l Hl. simpl in *.
    rewrite length_app. lia. }
  { apply Forall_fmap_ext_1. eapply Forall_impl; [exact Hrows|].
    intros l Hl. unfold vec_at. simpl. by rewrite lookup_total_app_l. }
  rewrite Hm. rewrite (bind_Return _ _ _ _ _ (augment_loop _ _ _ Hv)).
  unfold bind at 1. unfold mat_new at 1.
  unfold bind at 1. unfold self_n_iters at 1.
  cbv [set_vecs set_self set_drawn set_mats].
  cbn [self vecs mats drawn lr n_iters _iterations weights].
  rewrite Hsame, length_app. simpl length. unfold drawn_weights.
  rewrite !Nat.add_1_r, <- (app_assoc (vecs s)). done.
Qed.

Lemma fit_run s X y :
  allocated s X y -> mat_at s X <> [] ->
  fit X y s
  = (let '(r, (w, k)) :=
       fit_list (lr (self s)) (cons one <$> samples_of s X) (vec_at s y)
         (drawn_weights s (features s X)) 0 (Z.to_nat (n_iters (self s))) in
     (r, store_iterations k (store_weights (length (vecs s)) w (prepared s X)))).
Proof.
  intros Ha HX. rewrite fit_preamble by done.
  pose proof (fit_loop_run (prepared s X) (length (mats s)) y (length (vecs s))
                _ (Z.to_nat (n_iters (self s))) (trains_prepared s X y Ha)
                (drawn_weights s (features s X)) 0) as E.
  rewrite <- vec_at_prepared_weights in E at 1.
  rewrite store_weights_same in E.
  rewrite vec_at_prepared_rows, vec_at_prepared_old in E by apply Ha.
  exact E.
Qed.

(** ** The loops against the words of the specification *)

Lemma length_bump eta e (x w : list R) : length (bump eta e x w) = length w.
Proof.
  revert w. induction x as [|xj x IH]; intros [|wj w]; simpl; try done.
  by rewrite IH.
Qed.

Lemma bump_adjust eta e (x w : list R) :
  length x = length w -> bump eta e x w = adjust eta e x w.
Proof.
  unfold adjust. revert w. induction x as [|xj x IH]; intros [|wj w] Hlen;
    simpl in *; try done.
  rewrite IH by lia. done.
Qed.

Lemma length_adjust eta e (x w : list R) :
  length x = length w -> length (adjust eta e x w) = length w.
Proof. intros Hlen. rewrite <- bump_adjust by done. apply length_bump. Qed.

Lemma length_learn eta (w : list R) sample :
  length sample.1 = length w -> length (learn eta w sample) = length w.
Proof.
  intros Hlen. unfold learn. destruct (negb _); [|done].
  by apply length_adjust.
Qed.

Lemma epoch_list_spec eta (xss : list (list R)) :
  forall (ys w : list R) ok,
  Forall (fun x => length x = length w) xss ->
  (length xss <= length ys)%nat ->
  epoch_list eta xss ys w ok
  = (let (w', misclassified) :=
       foldl (epoch_step eta) (w, negb ok) (zip xss ys) in
     (Return (negb misclassified), w')).
Proof.
  induction xss as [|x xss IH]; intros ys w ok Hxs Hys.
  - simpl. by rewrite negb_involutive.
  - apply Forall_cons in Hxs as [Hx Hxs].
    destruct ys as [|yi ys]; simpl in Hys; [lia|].
    simpl epoch_list. rewrite partial_sum_le by lia.
    simpl zip. simpl foldl. unfold epoch_step at 2. unfold learn, error_of.
    simpl fst. simpl snd. fold (weighted_sum x w).
    destruct (negb (eqb (sub yi (_activation (weighted_sum x w))) zero)) eqn:He.
    + rewrite orb_true_r. rewrite bump_adjust by done.
      rewrite IH; [done| |lia].
      eapply Forall_impl; [exact Hxs|]. intros x' Hx'. simpl in *.
      rewrite length_adjust by done. done.
    + rewrite orb_false_r. rewrite IH; [done|done|lia].
Qed.

Lemma length_epoch_step_foldl eta (samples : list (list R * R)) :
  forall st,
  Forall (fun sample => length sample.1 = length st.1) samples ->
  length (foldl (epoch_step eta) st samples).1 = length st.1.
Proof.
  induction samples as [|sample samples IH]; intros st Hs; [done|].
  apply Forall_cons in Hs as [Hx Hs]. simpl foldl.
  rewrite IH.
  - simpl. by apply length_learn.
  - eapply Forall_impl; [exact Hs|]. intros x' Hx'. simpl in *.
    rewrite length_learn by done. done.
Qed.

Lemma length_epoch eta samples (w : list R) :
  Forall (fun sample => length sample.1 = length w) samples ->
  length (epoch eta samples w).1 = length w.
Proof. intros Hs. by apply (length_epoch_step_foldl eta samples (w, false)). Qed.

Lemma Forall_zip_fst (xss : list (list R)) (ys : list R) (n : nat) :
  Forall (fun x => length x = n) xss ->
  Forall (fun sample : list R * R => length sample.1 = n) (zip xss ys).
Proof.
  revert ys. induction xss as [|x xss IH]; intros [|yi ys] Hxs; simpl;
    try by constructor.
  apply Forall_cons in Hxs as [Hx Hxs]. constructor; [done|]. by apply IH.
Qed.

Lemma weights_after_shift eta samples (w : list R) k :
  weights_after eta samples w (S k)
  = weights_after eta samples (epoch eta samples w).1 k.
Proof. induction k as [|k IH]; [done|]. simpl in *. by rewrite IH. Qed.

Lemma fit_list_spec eta (xss : list (list R)) (ys : list R) rounds :
  forall w k,
  Forall (fun x => length x = length w) xss ->
  (length xss <= length ys)%nat ->
  fit_list eta xss ys w k rounds
  = (Return tt,
     (weights_after eta (zip xss ys) w (epochs_run eta (zip xss ys) w rounds),
      k + Z.of_nat (epochs_run eta (zip xss ys) w rounds))).
Proof.
  induction rounds as [|rounds IH]; intros w k Hxs Hys.
  - simpl. by rewrite Z.add_0_r.
  - simpl fit_list. simpl epochs_run.
    rewrite epoch_list_spec by done. simpl negb. fold (epoch eta (zip xss ys) w).
    pose proof (length_epoch eta (zip xss ys) w (Forall_zip_fst _ _ _ Hxs)) as Hlen.
    destruct (epoch eta (zip xss ys) w) as [w' [|]] eqn:He; simpl negb; cbv iota.
    + simpl in Hlen. rewrite IH; [|by rewrite Hlen|done].
      rewrite weights_after_shift, He. simpl fst.
      f_equal. f_equal. lia.
    + simpl. rewrite He. done.
Qed.

Lemma clean_epoch_shift eta samples (w : list R) k :
  clean_epoch eta samples w (S k)
  = clean_epoch eta samples (epoch eta samples w).1 k.
Proof. unfold clean_epoch. by rewrite weights_after_shift. Qed.

Lemma epochs_run_first_clean eta samples rounds :
  forall (w : list R) j,
  (j < rounds)%nat ->
  (forall i, (i < j)%nat -> clean_epoch eta samples w i = false) ->
  clean_epoch eta samples w j = true ->
  epochs_run eta samples w rounds = S j.
Proof.
  induction rounds as [|rounds IH]; intros w j Hj Hdirty Hclean; [lia|].
  simpl. destruct j as [|j].
  - unfold clean_epoch in Hclean. simpl in Hclean.
    destruct (epoch eta samples w) as [w' [|]]; simpl in *; done.
  - pose proof (Hdirty 0%nat ltac:(lia)) as H0.
    unfold clean_epoch in H0. simpl in H0.
    destruct (epoch eta samples w) as [w' [|]] eqn:He; simpl in H0; [|done].
    f_equal. apply IH; [lia| |].
    + intros i Hi. specialize (Hdirty (S i) ltac:(lia)).
      by rewrite clean_epoch_shift, He in Hdirty.
    + by rewrite clean_epoch_shift, He in Hclean.
Qed.

Lemma epochs_run_none_clean eta samples rounds :
  forall (w : list R),
  (forall i, (i < rounds)%nat -> clean_epoch eta samples w i = false) ->
  epochs_run eta samples w rounds = rounds.
Proof.
  induction rounds as [|rounds IH]; intros w Hdirty; [done|].
  simpl. pose proof (Hdirty 0%nat ltac:(lia)) as H0.
  unfold clean_epoch in H0. simpl in H0.
  destruct (epoch eta samples w) as [w' [|]] eqn:He; simpl in H0; [|done].
  f_equal. apply IH. intros i Hi. specialize (Hdirty (S i) ltac:(lia)).
  by rewrite clean_epoch_shift, He in Hdirty.
Qed.

Lemma epoch_step_quiet eta samples :
  forall (st : list R * bool),
  (foldl (epoch_step eta) st samples).2 = false ->
  st.2 = false /\ (foldl (epoch_step eta) st samples).1 = st.1.
Proof.
  induction samples as [|sample samples IH]; intros st Hq; [done|].
  simpl in *. destruct (IH _ Hq) as [Hflag Hw]. simpl in Hflag.
  apply orb_false_iff in Hflag as [Hst He]. split; [done|].
  rewrite Hw. simpl. unfold learn. by rewrite He.
Qed.

Lemma clean_epoch_fixes eta samples (w : list R) k :
  clean_epoch eta samples w k = true ->
  weights_after eta samples w (S k) = weights_after eta samples w k.
Proof.
  unfold clean_epoch. intros Hc. apply negb_true_iff in Hc. simpl.
  by apply (epoch_step_quiet eta samples (weights_after eta samples w k, false)).
Qed.

(** ** What holds of every run of the loops *)

Lemma length_epoch_list eta (xss : list (list R)) :
  forall (ys w : list R) ok,
  length (epoch_list eta xss ys w ok).2 = length w.
Proof.
  induction xss as [|x xss IH]; intros ys w ok; [done|].
  simpl. destruct (partial_sum zero x w); [|done].
  destruct ys as [|yi ys]; [done|].
  destruct (negb _); rewrite IH; [apply length_bump|done].
Qed.

Lemma fit_list_bounds eta (xss : list (list R)) (ys : list R) rounds :
  forall w k,
  length (fit_list eta xss ys w k rounds).2.1 = length w
  /\ k + (if rounds is O then 0 else 1) <= (fit_list eta xss ys w k rounds).2.2
  /\ (fit_list eta xss ys w k rounds).2.2 <= k + Z.of_nat rounds.
Proof.
  induction rounds as [|rounds IH]; intros w k.
  - simpl. lia.
  - simpl fit_list. pose proof (length_epoch_list eta xss ys w true) as Hlen.
    destruct (epoch_list eta xss ys w true) as [[[|]|e] w']; simpl in Hlen |- *.
    + lia.
    + destruct (IH w' (k + 1)) as (Hl & Hlo & Hhi). rewrite Hl.
      destruct rounds; lia.
    + lia.
Qed.

Lemma vec_len_run s l : vec_len l s = (Return (length (vec_at s l)), s).
Proof. done. Qed.

Lemma vec_new_run s xs :
  vec_new xs s = (Return (length (vecs s)), set_vecs (vecs s ++ [xs]) s).
Proof. done. Qed.

Lemma set_self_weights_run s l :
  set_self_weights l s
  = (Return tt,
     set_self (mkPerceptron (lr (self s)) (n_iters (self s))
                 (_iterations (self s)) (Some l)) s).
Proof. done. Qed.

Lemma set_self__iterations_run s k :
  set_self__iterations k s = (Return tt, store_iterations k s).
Proof. done. Qed.

(** [fit] forgets the counter and the weights of an earlier call. *)
Lemma fit_forgets s X y k ow :
  mat_at s X <> [] ->
  fit X y (set_self (mkPerceptron (lr (self s)) (n_iters (self s)) k ow) s)
  = fit X y s.
Proof.
  intros HX. unfold fit.
  destruct (mat_at s X) as [|x0 rows] eqn:Hm; [done|].
  assert (mat_at s X !! 0%nat = Some x0) as E0 by (by rewrite Hm).
  set (s0 := set_self _ s).
  assert (mat_at s0 X !! 0%nat = Some x0) as E0' by exact E0.
  rewrite (bind_Return _ _ s0 _ _ (mat_get_run _ _ _ _ E0')).
  rewrite (bind_Return _ _ s _ _ (mat_get_run _ _ _ _ E0)).
  rewrite (bind_Return _ _ s0 _ _ (vec_len_run _ _)).
  rewrite (bind_Return _ _ s _ _ (vec_len_run _ _)).
  cbv beta. unfold range.
  rewrite !(bind_Return _ _ _ _ _ (draw_loop _ _ _ _)).
  rewrite !(bind_Return _ _ _ _ _ (vec_new_run _ _)).
  rewrite !(bind_Return _ _ _ _ _ (set_self_weights_run _ _)).
  rewrite !(bind_Return _ _ _ _ _ (set_self__iterations_run _ _)).
  done.
Qed.

Lemma weights_of_final s X w k :
  weights_of (store_iterations k (store_weights (length (vecs s)) w (prepared s X)))
  = Some w.
Proof.
  change (weights_of (store_iterations k ?t)) with (weights_of t).
  apply weights_of_store_weights; [done|].
  simpl. rewrite length_app. simpl. lia.
Qed.

Lemma length_drawn_weights s n : length (drawn_weights s n) = (n + 1)%nat.
Proof. unfold drawn_weights. by rewrite length_fmap, length_seq. Qed.

Lemma fit_spec s X y :
  trainable s X y ->
  let eta := lr (self s) in
  let samples := augment (samples_of s X) (vec_at s y) in
  let w0 := drawn_weights s (features s X) in
  let k := epochs_run eta samples w0 (Z.to_nat (n_iters (self s))) in
  fit X y s
  = (Return tt,
     store_iterations (Z.of_nat k)
       (store_weights (length (vecs s)) (weights_after eta samples w0 k)
          (prepared s X))).
Proof.
  intros (Ha & HX & Hxs & Hys). cbv zeta. rewrite fit_run by done.
  rewrite fit_list_spec.
  - done.
  - apply Forall_fmap. eapply Forall_impl; [exact Hxs|]. intros x Hx.
    simpl in *. rewrite length_drawn_weights. lia.
  - by rewrite length_fmap.
Qed.

Lemma epoch_learn eta samples :
  forall (st : list R * bool),
  (foldl (epoch_step eta) st samples).1 = foldl (learn eta) st.1 samples.
Proof.
  induction samples as [|sample samples IH]; intros st; [done|].
  simpl. by rewrite IH.
Qed.

(** ** The properties of the class *)

Lemma lookup_adjust eta e (x w : list R) j wj xj :
  w !! j = Some wj -> x !! j = Some xj ->
  adjust eta e x w !! j = Some (add wj (mul (mul eta e) xj)).
Proof.
  intros Hw Hx. unfold adjust. rewrite lookup_zip_with, Hw. simpl.
  by rewrite Hx.
Qed.

(** C1.  During [fit] on a training set as the specification requires it,
    the weights are those that the update rule yields: the weights left
    behind are the drawn ones after as many epochs as the counter tells; an
    epoch takes the augmented samples in their order, each with the weights
    the previous one left; a sample whose error (label minus the activation
    of the weighted sum) is 0 leaves all weights as they are, and otherwise
    every weight [j], the bias at index 0 against the constant 1 included,
    grows by [learning_rate * error * augmented_sample[j]]. *)
Theorem fit_update_rule s X y :
  trainable s X y ->
  let eta := lr (self s) in
  let samples := augment (samples_of s X) (vec_at s y) in
  let w0 := drawn_weights s (features s X) in
  let s' := (fit X y s).2 in
  weights_of s'
  = Some (weights_after eta samples w0 (Z.to_nat (_iterations (self s'))))
  /\ (forall w, (epoch eta samples w).1 = foldl (learn eta) w samples)
  /\ (forall w x yi,
        length w = S (length x) ->
        let error := sub yi (_activation (weighted_sum (one :: x) w)) in
        if eqb error zero
        then learn eta w (one :: x, yi) = w
        else length (learn eta w (one :: x, yi)) = length w
             /\ forall j wj xj,
                 w !! j = Some wj -> (one :: x) !! j = Some xj ->
                 learn eta w (one :: x, yi) !! j
                 = Some (add wj (mul (mul eta error) xj))).
Proof.
  intros Ht. cbv zeta. split; [|split].
  - rewrite (fit_spec s X y Ht). cbv zeta. simpl snd.
    rewrite weights_of_final. simpl. by rewrite Nat2Z.id.
  - intros w. apply (epoch_learn _ _ (w, false)).
  - intros w x yi Hlen. unfold learn, error_of. simpl fst. simpl snd.
    destruct (eqb _ zero) eqn:He; simpl negb; cbv iota; [done|].
    split.
    + apply length_adjust. simpl. lia.
    + intros j wj xj Hw Hx. by apply lookup_adjust.
Qed.

Lemma predict_list_two_valued (ow : option (list R)) (x : list R) v :
  predict_list ow x = Return v -> v = one \/ v = opp one.
Proof.
  assert (forall z, _activation z = one \/ _activation z = opp one) as Hact.
  { intros z. unfold _activation. destruct (gtb z zero); [by left|by right]. }
  unfold predict_list. destruct x as [|xi x].
  - intros [= <-]. apply Hact.
  - destruct ow as [w|]; [|done].
    destruct (partial_sum zero (xi :: x) w); [|done].
    intros [= <-]. apply Hact.
Qed.

(** C2.  Whatever the input and the weights, a value that [predict] returns
    is 1 or -1.  On an input no longer than the weight list, where every
    product of the weighted sum exists, [predict] returns, and returns 1 if
    the sum is greater than 0 and -1 otherwise; a sum equal to 0 gives -1,
    which is not 1. *)
Theorem predict_activation s X :
  (forall v, (predict X s).1 = Return v -> v = one \/ v = opp one)
  /\ (forall w,
       weights_of s = Some w ->
       (length (vec_at s X) <= length w)%nat ->
       let z := weighted_sum (vec_at s X) w in
       predict X s = (Return (if gtb z zero then one else opp one), s)
       /\ (eqb z zero = true ->
           predict X s = (Return (opp one), s)
           /\ (predict X s).1 <> Return one)).
Proof.
  split.
  - intros v. rewrite predict_run. apply predict_list_two_valued.
  - intros w Hw Hlen. cbv zeta.
    assert (predict X s
            = (Return (_activation (weighted_sum (vec_at s X) w)), s)) as E.
    { rewrite predict_run, Hw, predict_list_Some. by rewrite partial_sum_le. }
    rewrite E. unfold _activation. split; [done|].
    intros Hz. rewrite (eqb_not_gtb _ _ Hz). split; [done|].
    simpl. intros Heq. injection Heq as Heq. by apply one_neq_opp_one.
Qed.

(** C3.  On a training set as the specification requires it, [fit] returns
    normally.  If epoch [j + 1] is the first without a misclassification and
    is within the allowed number, the counter is [j + 1] and the weights are
    those after [j + 1] epochs, which are those after [j]: no further epoch
    ran.  If every allowed epoch has a misclassification, the counter is the
    allowed number and the weights are those after that many epochs. *)
Theorem fit_stops s X y :
  trainable s X y ->
  let eta := lr (self s) in
  let samples := augment (samples_of s X) (vec_at s y) in
  let w0 := drawn_weights s (features s X) in
  let rounds := Z.to_nat (n_iters (self s)) in
  let s' := (fit X y s).2 in
  (fit X y s).1 = Return tt
  /\ (forall j,
        (j < rounds)%nat ->
        (forall i, (i < j)%nat -> clean_epoch eta samples w0 i = false) ->
        clean_epoch eta samples w0 j = true ->
        _iterations (self s') = Z.of_nat (S j)
        /\ weights_of s' = Some (weights_after eta samples w0 (S j))
        /\ weights_after eta samples w0 (S j) = weights_after eta samples w0 j)
  /\ ((forall i, (i < rounds)%nat -> clean_epoch eta samples w0 i = false) ->
      _iterations (self s') = Z.max 0 (n_iters (self s))
      /\ weights_of s' = Some (weights_after eta samples w0 rounds)).
Proof.
  intros Ht. cbv zeta. rewrite (fit_spec s X y Ht). cbv zeta. simpl fst. simpl snd.
  rewrite weights_of_final.
  change (_iterations (self (store_iterations ?k _))) with k.
  split; [done|]. split.
  - intros j Hj Hdirty Hclean.
    rewrite (epochs_run_first_clean _ _ _ _ j Hj Hdirty Hclean).
    split; [done|]. split; [done|]. by apply clean_epoch_fixes.
  - intros Hdirty. rewrite (epochs_run_none_clean _ _ _ _ Hdirty).
    split; [lia|done].
Qed.

(** C4.  After [fit] on a non-empty sample list whose first sample has [n]
    features, with a positive maximum, the weight list has [n + 1] entries and
    the counter is at least 1 and at most the maximum, however the call
    ends. *)
Theorem fit_invariant s X y :
  allocated s X y ->
  mat_at s X <> [] ->
  0 < n_iters (self s) ->
  let s' := (fit X y s).2 in
  length <$> weights_of s' = Some (features s X + 1)%nat
  /\ 1 <= _iterations (self s') <= n_iters (self s)
  /\ n_iters (self s') = n_iters (self s).
Proof.
  intros Ha HX Hn. cbv zeta. rewrite fit_run by done.
  pose proof (fit_list_bounds (lr (self s)) (cons one <$> samples_of s X)
                (vec_at s y) (Z.to_nat (n_iters (self s)))
                (drawn_weights s (features s X)) 0) as (Hlen & Hlo & Hhi).
  destruct (fit_list _ _ _ _ _ _) as [r [w k]]. simpl in Hlen, Hlo, Hhi.
  simpl snd. rewrite weights_of_final. simpl.
  rewrite Hlen, length_drawn_weights. split; [done|].
  destruct (Z.to_nat (n_iters (self s))) eqn:Hr; lia.
Qed.

(** C5, as the code has it.  [fit] on an empty sample list fails with the
    built-in [IndexError] that [X[0]] raises, before anything is drawn or
    assigned: the world is as it was. *)
Theorem fit_empty_samples s X y :
  mat_at s X = [] -> fit X y s = (Raise IndexError, s).
Proof. apply fit_empty. Qed.

Lemma epoch_list_short_labels eta (xss : list (list R)) :
  forall (ys w : list R) ok,
  Forall (fun x => length x = length w) xss ->
  (length ys < length xss)%nat ->
  (epoch_list eta xss ys w ok).1 = Raise IndexError.
Proof.
  induction xss as [|x xss IH]; intros ys w ok Hxs Hys; simpl in Hys; [lia|].
  apply Forall_cons in Hxs as [Hx Hxs].
  simpl. rewrite partial_sum_le by lia.
  destruct ys as [|yi ys]; [done|]. simpl in Hys.
  destruct (negb _).
  - apply IH; [|lia]. eapply Forall_impl; [exact Hxs|]. intros x' Hx'.
    simpl in *. by rewrite length_bump.
  - apply IH; [done|lia].
Qed.

(** C6, as the code has it.  No length is checked.  [predict] on an input
    longer than the weight list fails with the built-in [IndexError]; on an
    input that is not longer it returns the activation of the sum over the
    indices of the input alone.  [fit] on samples of equal lengths fails with
    [IndexError] when there are fewer labels than samples and an epoch is
    allowed, and returns normally when there are at least as many: labels
    past the last sample are never read. *)
Theorem lengths_unchecked s X y :
  (forall w, weights_of s = Some w ->
     (length w < length (vec_at s X))%nat ->
     predict X s = (Raise IndexError, s))
  /\ (forall w, weights_of s = Some w ->
       (length (vec_at s X) <= length w)%nat ->
       predict X s
       = (Return (_activation
                    (weighted_sum (vec_at s X) (take (length (vec_at s X)) w))),
          s))
  /\ (allocated s X y ->
      Forall (fun x => length x = features s X) (samples_of s X) ->
      (length (vec_at s y) < length (samples_of s X))%nat ->
      0 < n_iters (self s) ->
      (fit X y s).1 = Raise IndexError)
  /\ (allocated s X y ->
      mat_at s X <> [] ->
      Forall (fun x => length x = features s X) (samples_of s X) ->
      (length (samples_of s X) <= length (vec_at s y))%nat ->
      (fit X y s).1 = Return tt).
Proof.
  split; [|split; [|split]].
  - intros w Hw Hlen. rewrite predict_run, Hw, predict_list_Some.
    by rewrite partial_sum_gt.
  - intros w Hw Hlen. rewrite predict_run, Hw, predict_list_Some.
    rewrite partial_sum_le by done. unfold weighted_sum.
    do 4 f_equal. clear Hw. revert w Hlen.
    induction (vec_at s X) as [|xi x IH]; intros [|wi w] Hlen; simpl in *;
      try done; try lia.
    f_equal. apply IH. lia.
  - intros Ha Hxs Hys Hn.
    assert (mat_at s X <> []) as HX.
    { intros HX. unfold samples_of in Hys. rewrite HX in Hys. simpl in Hys. lia. }
    rewrite fit_run by done.
    destruct (Z.to_nat (n_iters (self s))) as [|rounds] eqn:Hr; [lia|].
    simpl fit_list.
    assert ((epoch_list (lr (self s)) (cons one <$> samples_of s X)
               (vec_at s y) (drawn_weights s (features s X)) true).1
            = Raise IndexError) as Hshort.
    { apply epoch_list_short_labels; [|by rewrite length_fmap].
      apply Forall_fmap. eapply Forall_impl; [exact Hxs|].
      intros x Hx. simpl in *. rewrite length_drawn_weights. lia. }
    destruct (epoch_list _ _ _ _ _) as [[[|]|e] w']; simpl in Hshort;
      [discriminate Hshort|discriminate Hshort|].
    injection Hshort as ->. done.
  - intros Ha HX Hxs Hys.
    by rewrite (fit_spec s X y (conj Ha (conj HX (conj Hxs Hys)))).
Qed.

(** C7.  [iterations] is 0 on an instance that [__init__] has just built;
    a call of [fit] on a non-empty sample list runs as if the counter (and
    the weights) of an earlier call had never been: the counter it leaves
    counts its own epochs only; and on a training set as the specification
    requires it, [iterations] then returns the number of epochs that this
    call ran. *)
Theorem iterations_of_last_fit s X y :
  mat_at s X <> [] ->
  (forall eta n, (iterations (set_self (__init__ eta n) s)).1 = Return 0)
  /\ (forall k ow,
       fit X y (set_self (mkPerceptron (lr (self s)) (n_iters (self s)) k ow) s)
       = fit X y s)
  /\ (forall X1 y1,
       let s1 := (fit X1 y1 s).2 in
       mat_at s1 X <> [] ->
       fit X y s1 = fit X y (store_iterations 0 s1))
  /\ (trainable s X y ->
      (iterations (fit X y s).2).1
      = Return (Z.of_nat
                  (epochs_run (lr (self s))
                     (augment (samples_of s X) (vec_at s y))
                     (drawn_weights s (features s X))
                     (Z.to_nat (n_iters (self s)))))).
Proof.
  intros HX. split; [done|]. split; [|split].
  - intros k ow. by apply fit_forgets.
  - intros X1 y1 s1 HX1. symmetry.
    apply (fit_forgets s1 X y 0 (weights (self s1)) HX1).
  - intros Ht. by rewrite (fit_spec s X y Ht).
Qed.

(** C8, as the code has it.  On an instance that [__init__] has just built,
    [predict] on a non-empty input fails with the built-in [AttributeError]
    ([self.weights] does not exist yet) and leaves the world as it was. *)
Theorem predict_before_fit s X eta n :
  vec_at s X <> [] ->
  predict X (set_self (__init__ eta n) s)
  = (Raise AttributeError, set_self (__init__ eta n) s).
Proof.
  intros HX. rewrite predict_run. unfold weights_of. simpl.
  change (vec_at (set_self _ s) X) with (vec_at s X).
  by destruct (vec_at s X).
Qed.

(** C9.  [predict] returns the same on equal weights and equal inputs, and
    leaves the world, hence the weights and the counter, as it was; a second
    call returns what the first did. *)
Theorem predict_pure s1 s2 X1 X2 :
  weights_of s1 = weights_of s2 ->
  vec_at s1 X1 = vec_at s2 X2 ->
  (predict X1 s1).1 = (predict X2 s2).1
  /\ (predict X1 s1).2 = s1
  /\ (first <- predict X1 ;; second <- predict X1 ;; ret (first, second)) s1
     = (match (predict X1 s1).1 with
        | Return a => Return (a, a)
        | Raise e => Raise e
        end, s1).
Proof.
  intros Hw HX. rewrite !predict_run, Hw, HX.
  split; [reflexivity|]. split; [reflexivity|].
  unfold bind. rewrite predict_run, Hw, HX. simpl fst.
  destruct (predict_list (weights_of s2) (vec_at s2 X2)) eqn:E; [|done].
  by rewrite predict_run, Hw, HX, E.
Qed.

(** C10.  [fit] changes no list that existed before the call: the sample
    list, every sample and the label list hold what they held, and so does
    every other list of the stores, which only grow. *)
Theorem fit_frame s X y :
  allocated s X y ->
  let s' := (fit X y s).2 in
  mat_at s' X = mat_at s X
  /\ samples_of s' X = samples_of s X
  /\ vec_at s' y = vec_at s y
  /\ take (length (vecs s)) (vecs s') = vecs s
  /\ take (length (mats s)) (mats s') = mats s.
Proof.
  intros Ha. cbv zeta.
  destruct (decide (mat_at s X = [])) as [HX|HX].
  { rewrite (fit_empty s X y HX). simpl. by rewrite !firstn_all. }
  rewrite fit_run by done.
  destruct (fit_list _ _ _ _ _ _) as [r [w k]]. simpl snd.
  set (s' := store_iterations k _).
  assert (take (length (vecs s)) (vecs s') = vecs s) as Hvecs.
  { simpl. rewrite take_insert_ge by lia. by rewrite take_app_length. }
  assert (take (length (mats s)) (mats s') = mats s) as Hmats.
  { simpl. by rewrite take_app_length. }
  assert (forall l, (l < length (vecs s))%nat -> vec_at s' l = vec_at s l) as Hv.
  { intros l Hl. unfold vec_at. rewrite !list_lookup_total_alt. f_equal.
    rewrite <- (lookup_take_lt (vecs s') (length (vecs s)) l Hl).
    by rewrite Hvecs. }
  assert (mat_at s' X = mat_at s X) as Hm.
  { assert (X < length (mats s))%nat as HlX.
    { destruct (decide (X < length (mats s))%nat) as [|Hge]; [done|].
      exfalso. apply HX. unfold mat_at. rewrite list_lookup_total_alt.
      rewrite lookup_ge_None_2; [done|lia]. }
    unfold mat_at. rewrite !list_lookup_total_alt. f_equal.
    rewrite <- (lookup_take_lt (mats s') (length (mats s)) X HlX).
    by rewrite Hmats. }
  destruct Ha as [Hrows Hy].
  split; [done|]. split; [|by auto].
  unfold samples_of. rewrite Hm. apply Forall_fmap_ext_1.
  eapply Forall_impl; [exact Hrows|]. intros l Hl. by apply Hv.
Qed.

End WithNumber.

(** ** Runs on binary64 numbers

    The worlds below hold dyadic numbers, so that every sum and product of a
    run is exact and can be followed by hand. *)

(** The generator yields 0.75, then 0.125 for ever. *)
Definition float_draws (k : nat) : float :=
  match k with
  | O => 0.75%float
  | S _ => 0.125%float
  end.

(** A new instance with learning rate 0.5 and at most 10 epochs; the samples
    [[2, 2], [4, 4], [-2, -2], [-4, -1]] (objects 0 to 3 of [vecs], listed by
    object 0 of [mats]) and the labels [1, 1, -1, -1] (object 4). *)
Definition and_world : World :=
  mkWorld (__init__ 0.5%float 10)
    [[2; 2]; [4; 4]; [-2; -2]; [-4; -1]; [1; 1; -1; -1]]%float
    [[0; 1; 2; 3]%nat] 0.

(** The XOR pattern, with at most 3 epochs. *)
Definition xor_world : World :=
  mkWorld (__init__ 0.5%float 3)
    [[0; 0]; [0; 1]; [1; 0]; [1; 1]; [-1; 1; 1; -1]]%float
    [[0; 1; 2; 3]%nat] 0.

(** The samples of [and_world] with the label lists [1, 1] (object 4) and
    [1, 1, -1, -1, 1, 1] (object 5). *)
Definition labels_world : World :=
  mkWorld (__init__ 0.5%float 10)
    [[2; 2]; [4; 4]; [-2; -2]; [-4; -1]; [1; 1]; [1; 1; -1; -1; 1; 1]]%float
    [[0; 1; 2; 3]%nat] 0.

(** A new instance, an empty sample list (object 0 of [mats]) and an empty
    label list (object 0 of [vecs]). *)
Definition empty_world : World :=
  mkWorld (__init__ 0.5%float 10) [[]] [[]] 0.

(** An instance whose weights are [0.5, -0.5] (object 0), after one epoch;
    the inputs [1, 1] (object 1), [1, 1, 1] (object 2) and [1] (object 3). *)
Definition trained_world : World :=
  mkWorld (mkPerceptron 0.5%float 10 1 (Some 0%nat))
    [[0.5; -0.5]; [1; 1]; [1; 1; 1]; [1]]%float [] 2.

(** The same weights held by another object (object 1), in another
    instance; the input [1, 1] is object 0. *)
Definition other_world : World :=
  mkWorld (mkPerceptron 0.25%float 7 4 (Some 1%nat))
    [[1; 1]; [0.5; -0.5]]%float [] 0.

Lemma and_world_trainable : trainable and_world 0%nat 4%nat.
Proof.
  repeat split.
  - repeat constructor.
  - vm_compute. lia.
  - discriminate.
  - repeat constructor.
  - vm_compute. lia.
Defined.

Lemma xor_world_trainable : trainable xor_world 0%nat 4%nat.
Proof.
  repeat split.
  - repeat constructor.
  - vm_compute. lia.
  - discriminate.
  - repeat constructor.
  - vm_compute. lia.
Defined.

Lemma labels_world_allocated (y : loc) :
  (y < 6)%nat -> allocated labels_world 0%nat y.
Proof. intros Hy. split; [repeat constructor|exact Hy]. Defined.

Lemma labels_world_uniform :
  Forall (fun x => length x = features labels_world 0%nat)
    (samples_of labels_world 0%nat).
Proof. repeat constructor. Defined.

(** Witness of C1: in [and_world] the drawn weights [0.75, 0.125, 0.125]
    misclassify [-2, -2] in the first epoch (error -2, so the weights move by
    [-1, 2, 2]); the second epoch changes nothing. *)
Lemma fit_update_rule_witness :
  trainable and_world 0%nat 4%nat
  /\ weights_of (fit float_draws 0%nat 4%nat and_world).2
     = Some [-0.25; 2.125; 2.125]%float.
Proof.
  split; [exact and_world_trainable|].
  destruct (fit_update_rule float_draws and_world 0%nat 4%nat
              and_world_trainable) as [E _].
  etransitivity; [exact E|]. vm_compute. reflexivity.
Defined.

(** Witness of C2: the weighted sum of [1, 1] against [0.5, -0.5] is 0. *)
Lemma predict_activation_witness :
  weights_of trained_world = Some [0.5; -0.5]%float
  /\ (length (vec_at trained_world 1%nat) <= length [0.5; -0.5]%float)%nat
  /\ predict 1%nat trained_world = (Return (-1)%float, trained_world).
Proof.
  split; [reflexivity|]. split; [vm_compute; lia|].
  assert (length (vec_at trained_world 1%nat) <= length [0.5; -0.5]%float)%nat
    as Hlen by (vm_compute; lia).
  destruct (predict_activation trained_world 1%nat) as (_ & Hsum).
  destruct (Hsum [0.5; -0.5]%float eq_refl Hlen) as (_ & Hz).
  apply Hz. vm_compute. reflexivity.
Defined.

(** Witness of C3: in [and_world] the second epoch is the first without a
    misclassification, and the counter is 2; in [xor_world] the three allowed
    epochs all misclassify, and the counter is 3. *)
Lemma fit_stops_witness :
  trainable and_world 0%nat 4%nat
  /\ trainable xor_world 0%nat 4%nat
  /\ (fit float_draws 0%nat 4%nat and_world).1 = Return tt
  /\ _iterations (self (fit float_draws 0%nat 4%nat and_world).2) = 2
  /\ (fit float_draws 0%nat 4%nat xor_world).1 = Return tt
  /\ _iterations (self (fit float_draws 0%nat 4%nat xor_world).2) = 3.
Proof.
  split; [exact and_world_trainable|]. split; [exact xor_world_trainable|].
  destruct (fit_stops float_draws and_world 0%nat 4%nat and_world_trainable)
    as (Hret & Hfirst & _).
  destruct (fit_stops float_draws xor_world 0%nat 4%nat xor_world_trainable)
    as (Hret' & _ & Hall).
  split; [exact Hret|]. split.
  - apply (Hfirst 1%nat).
    + vm_compute. lia.
    + intros i Hi. destruct i as [|i]; [vm_compute; reflexivity|lia].
    + vm_compute. reflexivity.
  - split; [exact Hret'|]. apply Hall.
    intros i Hi.
    do 3 (destruct i as [|i]; [vm_compute; reflexivity|]).
    vm_compute in Hi. lia.
Defined.

(** Witness of C4: two features, three weights, a counter between 1 and
    10. *)
Lemma fit_invariant_witness :
  allocated and_world 0%nat 4%nat
  /\ mat_at and_world 0%nat <> []
  /\ 0 < n_iters (self and_world)
  /\ length <$> weights_of (fit float_draws 0%nat 4%nat and_world).2
     = Some 3%nat
  /\ 1 <= _iterations (self (fit float_draws 0%nat 4%nat and_world).2) <= 10.
Proof.
  assert (allocated and_world 0%nat 4%nat) as Ha
    by (split; [repeat constructor|vm_compute; lia]).
  assert (mat_at and_world 0%nat <> []) as HX by discriminate.
  assert (0 < n_iters (self and_world)) as Hn by reflexivity.
  split; [exact Ha|]. split; [exact HX|]. split; [exact Hn|].
  destruct (fit_invariant float_draws and_world 0%nat 4%nat Ha HX Hn)
    as (Hlen & Hk & _).
  split; [exact Hlen|exact Hk].
Defined.

(** Counterexample to C5: on the empty sample list [fit] fails, and the
    exception is [IndexError], not [InvalidInput]. *)
Lemma fit_empty_not_InvalidInput :
  (fit float_draws 0%nat 0%nat empty_world).1 = Raise IndexError
  /\ (fit float_draws 0%nat 0%nat empty_world).1 <> Raise InvalidInput.
Proof. split; vm_compute; [reflexivity|discriminate]. Qed.

(** Witness of C5 as the code has it. *)
Lemma fit_empty_samples_witness :
  mat_at empty_world 0%nat = []
  /\ fit float_draws 0%nat 0%nat empty_world = (Raise IndexError, empty_world).
Proof.
  split; [reflexivity|].
  apply (fit_empty_samples float_draws empty_world 0%nat 0%nat). reflexivity.
Defined.

(** Counterexample to C6: [predict] on the input [1], shorter than the
    weights [0.5, -0.5], returns 1, and [fit] on four samples and six labels
    returns normally; neither raises anything. *)
Lemma lengths_differ_no_error :
  (predict 3%nat trained_world).1 = Return 1%float
  /\ (fit float_draws 0%nat 5%nat labels_world).1 = Return tt.
Proof. split; vm_compute; reflexivity. Qed.

(** Witness of C6 as the code has it: the input [1, 1, 1] against two
    weights, the input [1] against two weights, four samples with two labels,
    four samples with six labels. *)
Lemma lengths_unchecked_witness :
  predict 2%nat trained_world = (Raise IndexError, trained_world)
  /\ predict 3%nat trained_world = (Return 1%float, trained_world)
  /\ (fit float_draws 0%nat 4%nat labels_world).1 = Raise IndexError
  /\ (fit float_draws 0%nat 5%nat labels_world).1 = Return tt.
Proof.
  split; [|split; [|split]].
  - destruct (lengths_unchecked float_draws trained_world 2%nat 0%nat)
      as (Hlong & _).
    apply (Hlong [0.5; -0.5]%float); [reflexivity|vm_compute; lia].
  - destruct (lengths_unchecked float_draws trained_world 3%nat 0%nat)
      as (_ & Hshort & _).
    etransitivity.
    + apply (Hshort [0.5; -0.5]%float); [reflexivity|vm_compute; lia].
    + vm_compute. reflexivity.
  - destruct (lengths_unchecked float_draws labels_world 0%nat 4%nat)
      as (_ & _ & Hfew & _).
    apply Hfew.
    + apply labels_world_allocated. lia.
    + exact labels_world_uniform.
    + vm_compute. lia.
    + reflexivity.
  - destruct (lengths_unchecked float_draws labels_world 0%nat 5%nat)
      as (_ & _ & _ & Hmany).
    apply Hmany.
    + apply labels_world_allocated. lia.
    + discriminate.
    + exact labels_world_uniform.
    + vm_compute. lia.
Defined.

(** Witness of C7: a second [fit] in the world that the first one left (its
    counter is 2) draws [0.125, 0.125, 0.125], which classify every sample:
    the counter is then 1, not 3. *)
Lemma iterations_of_last_fit_witness :
  mat_at and_world 0%nat <> []
  /\ (iterations (set_self (__init__ 0.5%float 10) and_world)).1 = Return 0
  /\ (iterations (fit float_draws 0%nat 4%nat and_world).2).1 = Return 2
  /\ (iterations
        (fit float_draws 0%nat 4%nat
           (fit float_draws 0%nat 4%nat and_world).2).2).1 = Return 1.
Proof.
  assert (mat_at and_world 0%nat <> []) as HX by discriminate.
  destruct (iterations_of_last_fit float_draws and_world 0%nat 4%nat HX)
    as (Hnew & _ & Hagain & Hcount).
  split; [exact HX|]. split; [apply Hnew|]. split.
  - etransitivity; [apply Hcount; exact and_world_trainable|].
    vm_compute. reflexivity.
  - assert (mat_at (fit float_draws 0%nat 4%nat and_world).2 0%nat <> [])
      as HX' by (vm_compute; discriminate).
    etransitivity.
    + exact (f_equal (fun r : outcome unit * World => (iterations r.2).1)
               (Hagain 0%nat 4%nat HX')).
    + vm_compute. reflexivity.
Defined.

(** Counterexample to C8: before any [fit], [predict] on the input [2, 2]
    fails with [AttributeError], not [NotTrained], and [predict] on the empty
    input returns -1 without any failure. *)
Lemma predict_before_fit_not_NotTrained :
  (predict 0%nat and_world).1 = Raise AttributeError
  /\ (predict 0%nat and_world).1 <> Raise NotTrained
  /\ (predict 0%nat empty_world).1 = Return (-1)%float.
Proof. repeat split; vm_compute; (reflexivity || discriminate). Qed.

(** Witness of C8 as the code has it. *)
Lemma predict_before_fit_witness :
  vec_at and_world 0%nat <> []
  /\ predict 0%nat and_world = (Raise AttributeError, and_world).
Proof.
  split; [discriminate|].
  apply (predict_before_fit and_world 0%nat 0.5%float 10). discriminate.
Defined.

(** Witness of C9: the same weights and the same input in two worlds that
    differ in everything else. *)
Lemma predict_pure_witness :
  weights_of trained_world = weights_of other_world
  /\ vec_at trained_world 1%nat = vec_at other_world 0%nat
  /\ (predict 1%nat trained_world).1 = (predict 0%nat other_world).1
  /\ (predict 1%nat trained_world).2 = trained_world.
Proof.
  split; [reflexivity|]. split; [reflexivity|].
  destruct (predict_pure trained_world other_world 1%nat 0%nat
              eq_refl eq_refl) as (Hsame & Hstate & _).
  split; [exact Hsame|exact Hstate].
Defined.

(** Witness of C10: after [fit] the caller's lists of [and_world] hold what
    they held. *)
Lemma fit_frame_witness :
  allocated and_world 0%nat 4%nat
  /\ mat_at (fit float_draws 0%nat 4%nat and_world).2 0%nat = [0; 1; 2; 3]%nat
  /\ samples_of (fit float_draws 0%nat 4%nat and_world).2 0%nat
     = [[2; 2]; [4; 4]; [-2; -2]; [-4; -1]]%float
  /\ vec_at (fit float_draws 0%nat 4%nat and_world).2 4%nat
     = [1; 1; -1; -1]%float.
Proof.
  assert (allocated and_world 0%nat 4%nat) as Ha
    by (split; [repeat constructor|vm_compute; lia]).
  destruct (fit_frame float_draws and_world 0%nat 4%nat Ha)
    as (HX & Hrows & Hy & _).
  split; [exact Ha|]. split; [exact HX|]. split; [exact Hrows|exact Hy].
Defined.

(** * Further properties of the class *)


Section FurtherProperties.

Context {R : Type} `{Number R}.

Variable draws : nat -> R.

(** ** One pass of [_update_weights] *)

Lemma epoch_list_quiet eta (xss : list (list R)) :
  forall (ys w : list R) ok w',
  epoch_list eta xss ys w ok = (Return true, w') -> ok = true /\ w' = w.
Proof.
  induction xss as [|x xss IH]; intros ys w ok w' E; simpl in E.
  - by injection E as -> ->.
  - destruct (partial_sum zero x w); [|done].
    destruct ys as [|yi ys]; [done|].
    destruct (negb _).
    + by destruct (IH _ _ _ _ E).
    + by apply IH in E.
Qed.


Lemma _update_weights_at s X y wl rows :
  trains s X y wl rows ->
  _update_weights X y s
  = (let (r, w') := epoch_list (lr (self s)) (vec_at s <$> rows) (vec_at s y)
                      (vec_at s wl) true in
     (match r with Return ok => Return (negb ok) | Raise e => Raise e end,
      store_weights wl w' s)).
Proof.
  intros Ht. rewrite <- (_update_weights_run s X y wl rows _ Ht).
  by rewrite store_weights_same.
Qed.

(** X1.  A pass of [_update_weights] that returns [False] has changed
    nothing: the world after it is the world before it. *)
Theorem _update_weights_False_unchanged s X y wl rows :
  trains s X y wl rows ->
  (_update_weights X y s).1 = Return false ->
  (_update_weights X y s).2 = s.
Proof.
  intros Ht. rewrite (_update_weights_at s X y wl rows Ht).
  destruct (epoch_list _ _ _ _ _) as [[[|]|e] w'] eqn:E; simpl; try done.
  intros _. apply epoch_list_quiet in E as [_ ->]. apply store_weights_same.
Qed.

(** X2.  Whether it returns or raises, [_update_weights] touches nothing but
    the items of the weight list: the attributes of the instance, the sample
    lists, the generator, the number of list objects, every other list of
    numbers and the length of the weight list are as before. *)
Theorem _update_weights_footprint s X y wl rows :
  trains s X y wl rows ->
  let s' := (_update_weights X y s).2 in
  self s' = self s
  /\ mats s' = mats s
  /\ drawn s' = drawn s
  /\ length (vecs s') = length (vecs s)
  /\ (forall l, l <> wl -> vec_at s' l = vec_at s l)
  /\ length (vec_at s' wl) = length (vec_at s wl).
Proof.
  intros Ht. cbv zeta. rewrite (_update_weights_at s X y wl rows Ht).
  pose proof (length_epoch_list (lr (self s)) (vec_at s <$> rows) (vec_at s y)
                (vec_at s wl) true) as Hlen.
  destruct (epoch_list _ _ _ _ _) as [r w']. simpl in Hlen. simpl snd.
  split; [done|]. split; [done|]. split; [done|]. split; [|split].
  - simpl. by rewrite length_insert.
  - intros l Hl. by apply vec_at_store_weights_ne.
  - rewrite vec_at_store_weights_eq; [done|]. apply (trains_valid _ _ _ _ _ Ht).
Qed.

(** ** What [fit] touches *)


(** X4.  With a maximum of 0 or less no epoch runs: on a non-empty sample
    list [fit] returns normally, whatever the labels and the lengths of the
    other samples are, the counter is 0 and the weights are the numbers
    drawn. *)
Theorem fit_without_epochs s X y :
  allocated s X y ->
  mat_at s X <> [] ->
  n_iters (self s) <= 0 ->
  (fit draws X y s).1 = Return tt
  /\ _iterations (self (fit draws X y s).2) = 0
  /\ weights_of (fit draws X y s).2 = Some (drawn_weights draws s (features s X)).
Proof.
  intros Ha HX Hn. rewrite fit_run by done.
  replace (Z.to_nat (n_iters (self s))) with 0%nat by lia.
  simpl fit_list. cbv iota beta. simpl fst. simpl snd.
  by rewrite weights_of_final.
Qed.

(** ** How [fit] fails *)





Lemma epoch_list_long_sample eta (xss : list (list R)) :
  forall (ys w : list R) ok,
  Exists (fun x => length w < length x)%nat xss ->
  (epoch_list eta xss ys w ok).1 = Raise IndexError.
Proof.
  induction xss as [|x xss IH]; intros ys w ok Hex.
  - by apply Exists_nil in Hex.
  - simpl. destruct (partial_sum zero x w) as [z|] eqn:Hz; [|done].
    apply partial_sum_Some_le in Hz.
    apply Exists_cons in Hex as [Hx|Hex]; [lia|].
    destruct ys as [|yi ys]; [done|].
    destruct (negb _); apply IH; [|done].
    eapply Exists_impl; [exact Hex|]. intros x' Hx'. simpl in *.
    by rewrite length_bump.
Qed.

(** X6.  When an epoch is allowed and some sample has more features than
    the first one, [fit] fails with [IndexError]: no weight exists for its
    last features. *)
Theorem fit_long_sample s X y :
  allocated s X y ->
  0 < n_iters (self s) ->
  Exists (fun x => features s X < length x)%nat (samples_of s X) ->
  (fit draws X y s).1 = Raise IndexError.
Proof.
  intros Ha Hn Hex.
  assert (mat_at s X <> []) as HX.
  { intros HX. unfold samples_of in Hex. rewrite HX in Hex.
    by apply Exists_nil in Hex. }
  rewrite fit_run by done.
  destruct (Z.to_nat (n_iters (self s))) as [|rounds] eqn:Hr; [lia|].
  simpl fit_list.
  assert ((epoch_list (lr (self s)) (cons one <$> samples_of s X)
             (vec_at s y) (drawn_weights draws s (features s X)) true).1
          = Raise IndexError) as Hlong.
  { apply epoch_list_long_sample. apply Exists_fmap.
    eapply Exists_impl; [exact Hex|]. intros x Hx. simpl in *.
    rewrite length_drawn_weights. lia. }
  destruct (epoch_list _ _ _ _ _) as [[[|]|e] w']; simpl in Hlong;
    [discriminate Hlong|discriminate Hlong|].
  injection Hlong as ->. done.
Qed.

(** ** The labels that [fit] reads *)

Lemma epoch_list_take_labels eta (xss : list (list R)) :
  forall (ys w : list R) ok,
  epoch_list eta xss ys w ok = epoch_list eta xss (take (length xss) ys) w ok.
Proof.
  induction xss as [|x xss IH]; intros ys w ok; [done|].
  simpl. destruct (partial_sum zero x w); [|done].
  destruct ys as [|yi ys]; [done|]. simpl.
  destruct (negb _); apply IH.
Qed.

Lemma fit_list_take_labels eta (xss : list (list R)) (ys : list R) rounds :
  forall w k,
  fit_list eta xss ys w k rounds
  = fit_list eta xss (take (length xss) ys) w k rounds.
Proof.
  induction rounds as [|rounds IH]; intros w k; [done|].
  simpl. rewrite <- epoch_list_take_labels.
  destruct (epoch_list eta xss ys w true) as [[[|]|e] w']; [done| |done].
  apply IH.
Qed.

(** X7.  [fit] reads a label list up to the number of samples only: two
    label lists that agree on that many items give the same outcome and the
    same world. *)
Theorem fit_reads_leading_labels s X y1 y2 :
  allocated s X y1 ->
  allocated s X y2 ->
  take (length (mat_at s X)) (vec_at s y1)
  = take (length (mat_at s X)) (vec_at s y2) ->
  fit draws X y1 s = fit draws X y2 s.
Proof.
  intros Ha1 Ha2 Hy. destruct (decide (mat_at s X = [])) as [HX|HX].
  { by rewrite !fit_empty. }
  rewrite !fit_run by done.
  rewrite (fit_list_take_labels _ _ (vec_at s y1)).
  rewrite (fit_list_take_labels _ _ (vec_at s y2)).
  unfold samples_of. rewrite !length_fmap. by rewrite Hy.
Qed.

(** ** [fit], then [predict] *)

Lemma epochs_run_early eta samples rounds :
  forall w : list R,
  (epochs_run eta samples w rounds < rounds)%nat ->
  exists j, epochs_run eta samples w rounds = S j
            /\ clean_epoch eta samples w j = true.
Proof.
  induction rounds as [|rounds IH]; intros w Hlt; [simpl in Hlt; lia|].
  simpl in *. destruct (epoch eta samples w) as [w' [|]] eqn:He.
  - destruct (IH w' ltac:(lia)) as (j & Hj & Hc). exists (S j).
    split; [by rewrite Hj|]. by rewrite clean_epoch_shift, He.
  - exists 0%nat. split; [done|]. unfold clean_epoch. simpl. by rewrite He.
Qed.

Lemma epoch_step_quiet_all eta samples :
  forall (st : list R * bool),
  (foldl (epoch_step eta) st samples).2 = false ->
  Forall (fun sample => eqb (error_of st.1 sample) zero = true) samples.
Proof.
  induction samples as [|sample samples IH]; intros st Hq; [constructor|].
  simpl in Hq. pose proof (epoch_step_quiet _ _ _ Hq) as [Hflag _].
  simpl in Hflag. apply orb_false_iff in Hflag as [_ He].
  apply negb_false_iff in He.
  constructor; [done|].
  apply IH in Hq. simpl in Hq. unfold learn in Hq. by rewrite He in Hq.
Qed.

Lemma length_weights_after eta samples (w : list R) k :
  Forall (fun sample => length sample.1 = length w) samples ->
  length (weights_after eta samples w k) = length w.
Proof.
  intros Hs. induction k as [|k IH]; [done|]. simpl.
  rewrite length_epoch; [done|].
  eapply Forall_impl; [exact Hs|]. intros sample Hl. simpl in *. congruence.
Qed.

(** X8.  When [fit], on a training set as it expects, stops below the
    maximum, the weights it leaves classify every training sample: [predict]
    on a list that holds a 1 followed by the features of a sample returns a
    value whose difference from the label of that sample equals 0. *)
Theorem fit_below_maximum_classifies s X y :
  trainable s X y ->
  _iterations (self (fit draws X y s).2) < n_iters (self s) ->
  forall i x yi X1,
  samples_of s X !! i = Some x ->
  vec_at s y !! i = Some yi ->
  vec_at (fit draws X y s).2 X1 = one :: x ->
  exists p,
    predict X1 (fit draws X y s).2 = (Return p, (fit draws X y s).2)
    /\ eqb (sub yi p) zero = true.
Proof.
  intros Ht Hk i x yi X1 Hx Hyi HX1.
  pose proof Ht as (Ha & HX & Hxs & Hys).
  rewrite (fit_spec draws s X y Ht) in *. cbv zeta in *. simpl snd in *.
  set (eta := lr (self s)) in *.
  set (samples := augment (samples_of s X) (vec_at s y)) in *.
  set (w0 := drawn_weights draws s (features s X)) in *.
  set (rounds := Z.to_nat (n_iters (self s))) in *.
  change (_iterations (self (store_iterations ?k _))) with k in Hk.
  destruct (epochs_run_early eta samples rounds w0 ltac:(lia)) as (j & Hj & Hc).
  rewrite Hj in *. rewrite (clean_epoch_fixes _ _ _ _ Hc) in *.
  set (w := weights_after eta samples w0 j) in *.
  assert (Forall (fun sample : list R * R => length sample.1 = length w0) samples)
    as Hsamples.
  { apply Forall_zip_fst. apply Forall_fmap. eapply Forall_impl; [exact Hxs|].
    intros x' Hx'. simpl in *. unfold w0. rewrite length_drawn_weights. lia. }
  assert (length w = length w0) as Hlen by (by apply length_weights_after).
  assert (samples !! i = Some (one :: x, yi)) as Hi.
  { unfold samples, augment. rewrite lookup_zip_with, list_lookup_fmap, Hx.
    simpl. by rewrite Hyi. }
  unfold clean_epoch in Hc. apply negb_true_iff in Hc.
  pose proof (epoch_step_quiet_all eta samples (w, false) Hc) as Hall.
  pose proof (Forall_lookup_1 _ _ _ _ Hall Hi) as He. simpl in He.
  unfold error_of in He. simpl in He.
  exists (_activation (weighted_sum (one :: x) w)). split; [|exact He].
  rewrite predict_run, weights_of_final, HX1, predict_list_Some.
  rewrite partial_sum_le; [done|].
  pose proof (Forall_lookup_1 _ _ _ _ Hxs Hx) as Hfx. simpl in Hfx.
  rewrite Hlen. unfold w0. rewrite length_drawn_weights. simpl. lia.
Qed.

(** ** When [predict] fails *)


End FurtherProperties.

(** ** Further runs on binary64 numbers *)

(** The world in which the loop of [fit] starts on [and_world]: the weights
    drawn are object 5, the augmented samples objects 6 to 9, listed by
    object 1 of [mats]. *)
Definition started_world : World :=
  mkWorld (mkPerceptron 0.5%float 10 0 (Some 5%nat))
    [[2; 2]; [4; 4]; [-2; -2]; [-4; -1]; [1; 1; -1; -1];
     [0.75; 0.125; 0.125];
     [1; 2; 2]; [1; 4; 4]; [1; -2; -2]; [1; -4; -1]]%float
    [[0; 1; 2; 3]; [6; 7; 8; 9]]%nat 3.

(** The world that [fit] leaves on [and_world]. *)
Definition converged_world : World :=
  mkWorld (mkPerceptron 0.5%float 10 2 (Some 5%nat))
    [[2; 2]; [4; 4]; [-2; -2]; [-4; -1]; [1; 1; -1; -1];
     [-0.25; 2.125; 2.125];
     [1; 2; 2]; [1; 4; 4]; [1; -2; -2]; [1; -4; -1]]%float
    [[0; 1; 2; 3]; [6; 7; 8; 9]]%nat 3.

(** A new instance that allows no epoch, the samples [[2, 2], [4, 4, 4]]
    and an empty label list (object 2). *)
Definition idle_world : World :=
  mkWorld (__init__ 0.5%float 0) [[2; 2]; [4; 4; 4]; []]%float [[0; 1]%nat] 0.

(** The samples [[2, 2], [4, 4, 4]] with the labels [1, 1] (object 2). *)
Definition ragged_world : World :=
  mkWorld (__init__ 0.5%float 10) [[2; 2]; [4; 4; 4]; [1; 1]]%float
    [[0; 1]%nat] 0.

(** The samples of [and_world] with the label lists [1, 1, -1, -1]
    (object 4) and [1, 1, -1, -1, 1, 1] (object 5). *)
Definition surplus_world : World :=
  mkWorld (__init__ 0.5%float 10)
    [[2; 2]; [4; 4]; [-2; -2]; [-4; -1]; [1; 1; -1; -1];
     [1; 1; -1; -1; 1; 1]]%float
    [[0; 1; 2; 3]%nat] 0.

Lemma started_world_trains (s : @World float) :
  weights (self s) = Some 5%nat ->
  (5 < length (vecs s))%nat ->
  mat_at s 1%nat = [6; 7; 8; 9]%nat ->
  trains s 1%nat 4%nat 5%nat [6; 7; 8; 9]%nat.
Proof.
  intros Hw Hv HX. split; [exact Hw|exact Hv|exact HX| |discriminate].
  repeat constructor; discriminate.
Defined.

(** Witness of X1: in the world that [fit] left, a further pass finds every
    sample classified. *)
Lemma _update_weights_False_unchanged_witness :
  trains converged_world 1%nat 4%nat 5%nat [6; 7; 8; 9]%nat
  /\ (_update_weights 1%nat 4%nat converged_world).1 = Return false
  /\ (_update_weights 1%nat 4%nat converged_world).2 = converged_world.
Proof.
  assert (trains converged_world 1%nat 4%nat 5%nat [6; 7; 8; 9]%nat) as Ht
    by (apply started_world_trains; [reflexivity|vm_compute; lia|reflexivity]).
  assert ((_update_weights 1%nat 4%nat converged_world).1 = Return false)
    as Hr by (vm_compute; reflexivity).
  split; [exact Ht|]. split; [exact Hr|].
  exact (_update_weights_False_unchanged converged_world 1%nat 4%nat 5%nat
           [6; 7; 8; 9]%nat Ht Hr).
Defined.

(** Witness of X2: the first pass on [and_world] moves the weights, and
    nothing else. *)
Lemma _update_weights_footprint_witness :
  trains started_world 1%nat 4%nat 5%nat [6; 7; 8; 9]%nat
  /\ (_update_weights 1%nat 4%nat started_world).1 = Return true
  /\ self (_update_weights 1%nat 4%nat started_world).2 = self started_world
  /\ vec_at (_update_weights 1%nat 4%nat started_world).2 4%nat
     = [1; 1; -1; -1]%float
  /\ length (vec_at (_update_weights 1%nat 4%nat started_world).2 5%nat)
     = 3%nat.
Proof.
  assert (trains started_world 1%nat 4%nat 5%nat [6; 7; 8; 9]%nat) as Ht
    by (apply started_world_trains; [reflexivity|vm_compute; lia|reflexivity]).
  destruct (_update_weights_footprint started_world 1%nat 4%nat 5%nat
              [6; 7; 8; 9]%nat Ht) as (Hself & _ & _ & _ & Hother & Hlen).
  split; [exact Ht|]. split; [vm_compute; reflexivity|].
  split; [exact Hself|]. split.
  - etransitivity; [apply Hother; discriminate|reflexivity].
  - etransitivity; [exact Hlen|reflexivity].
Defined.


(** Witness of X4: no epoch, no label read, no other sample looked at. *)
Lemma fit_without_epochs_witness :
  allocated idle_world 0%nat 2%nat
  /\ mat_at idle_world 0%nat <> []
  /\ n_iters (self idle_world) <= 0
  /\ (fit float_draws 0%nat 2%nat idle_world).1 = Return tt
  /\ _iterations (self (fit float_draws 0%nat 2%nat idle_world).2) = 0
  /\ weights_of (fit float_draws 0%nat 2%nat idle_world).2
     = Some [0.75; 0.125; 0.125]%float.
Proof.
  assert (allocated idle_world 0%nat 2%nat) as Ha
    by (split; [repeat constructor|vm_compute; lia]).
  assert (mat_at idle_world 0%nat <> []) as HX by discriminate.
  assert (n_iters (self idle_world) <= 0) as Hn by (vm_compute; discriminate).
  destruct (fit_without_epochs float_draws idle_world 0%nat 2%nat Ha HX Hn)
    as (Hr & Hk & Hw).
  split; [exact Ha|]. split; [exact HX|]. split; [exact Hn|].
  split; [exact Hr|]. split; [exact Hk|exact Hw].
Defined.


(** Witness of X6: the second sample has three features, the first two. *)
Lemma fit_long_sample_witness :
  allocated ragged_world 0%nat 2%nat
  /\ 0 < n_iters (self ragged_world)
  /\ Exists (fun x => features ragged_world 0%nat < length x)%nat
       (samples_of ragged_world 0%nat)
  /\ (fit float_draws 0%nat 2%nat ragged_world).1 = Raise IndexError.
Proof.
  assert (allocated ragged_world 0%nat 2%nat) as Ha
    by (split; [repeat constructor|vm_compute; lia]).
  assert (0 < n_iters (self ragged_world)) as Hn by reflexivity.
  assert (Exists (fun x => features ragged_world 0%nat < length x)%nat
            (samples_of ragged_world 0%nat)) as Hex
    by (apply Exists_cons_tl, Exists_cons_hd; vm_compute; lia).
  split; [exact Ha|]. split; [exact Hn|]. split; [exact Hex|].
  exact (fit_long_sample float_draws ragged_world 0%nat 2%nat Ha Hn Hex).
Defined.

(** Witness of X7: four labels, or the same four and two more. *)
Lemma fit_reads_leading_labels_witness :
  allocated surplus_world 0%nat 4%nat
  /\ allocated surplus_world 0%nat 5%nat
  /\ take (length (mat_at surplus_world 0%nat)) (vec_at surplus_world 4%nat)
     = take (length (mat_at surplus_world 0%nat)) (vec_at surplus_world 5%nat)
  /\ fit float_draws 0%nat 4%nat surplus_world
     = fit float_draws 0%nat 5%nat surplus_world.
Proof.
  assert (allocated surplus_world 0%nat 4%nat) as Ha1
    by (split; [repeat constructor|vm_compute; lia]).
  assert (allocated surplus_world 0%nat 5%nat) as Ha2
    by (split; [repeat constructor|vm_compute; lia]).
  split; [exact Ha1|]. split; [exact Ha2|]. split; [reflexivity|].
  apply (fit_reads_leading_labels float_draws surplus_world 0%nat 4%nat 5%nat
           Ha1 Ha2).
  reflexivity.
Defined.

(** Witness of X8: [fit] on [and_world] stops after 2 of 10 epochs; the
    third sample, [-2, -2] with label -1, augmented, is object 8. *)
Lemma fit_below_maximum_classifies_witness :
  trainable and_world 0%nat 4%nat
  /\ _iterations (self (fit float_draws 0%nat 4%nat and_world).2)
     < n_iters (self and_world)
  /\ exists p,
       predict 8%nat (fit float_draws 0%nat 4%nat and_world).2
       = (Return p, (fit float_draws 0%nat 4%nat and_world).2)
       /\ eqb (sub (-1)%float p) zero = true.
Proof.
  assert (_iterations (self (fit float_draws 0%nat 4%nat and_world).2)
          < n_iters (self and_world)) as Hk by (vm_compute; reflexivity).
  split; [exact and_world_trainable|]. split; [exact Hk|].
  apply (fit_below_maximum_classifies float_draws and_world 0%nat 4%nat
           and_world_trainable Hk 2%nat [-2; -2]%float (-1)%float 8%nat).
  - reflexivity.
  - reflexivity.
  - vm_compute. reflexivity.
Defined.
